(** * pdb2pqr: the command-line driver [mainCommand] of [pdb2pqr/main.py]

    A shallow embedding of the driver and the properties of its
    configuration checks, its input-format selection, its parse check, its
    run stage and its output loop.

    The driver is one long Python function.  It is embedded here as a
    computation in a small trace-and-exception monad: every call into a
    collaborator (file system, readers, pipeline, logger) leaves an event in
    the trace, and [parser.error], uncaught exceptions and [raise] end the
    computation with an exception.  The collaborators that live in other
    modules ([utilities], [pdb], [cif], [run], the file system) are the
    fields of a [World] record. *)

From Stdlib Require Import Bool List String Ascii Arith Lia ZArith QArith.
Import ListNotations.

Local Close Scope Q_scope.
Local Open Scope nat_scope.
Local Open Scope string_scope.
Local Open Scope list_scope.

(* ================================================================== *)
(** ** Python strings: slices, [lower], [rfind] *)

Module PyStr.

(** [s[:n]] *)
Fixpoint take (n : nat) (s : string) : string :=
  match n, s with
  | O, _ => EmptyString
  | S _, EmptyString => EmptyString
  | S n', String c s' => String c (take n' s')
  end.

(** [s[n:]] *)
Fixpoint drop (n : nat) (s : string) : string :=
  match n, s with
  | O, _ => s
  | S _, EmptyString => EmptyString
  | S n', String _ s' => drop n' s'
  end.

(** [s[i:j]] for non-negative literal bounds: out-of-range bounds are
    clipped to the length, and an empty range gives the empty string. *)
Definition slice (i j : nat) (s : string) : string := take (j - i) (drop i s).

(** [s[:k] + c + s[k:]]: insertion of one character at offset [k]. *)
Definition insert_at (k : nat) (c : ascii) (s : string) : string :=
  (take k s ++ String c (drop k s))%string.

(** [s[:k] + s[k+1:]]: deletion of the character at offset [k]. *)
Definition delete_at (k : nat) (s : string) : string :=
  (take k s ++ drop (S k) s)%string.

(** [str.lower] on the ASCII range. *)
Definition lower_ascii (c : ascii) : ascii :=
  let n := nat_of_ascii c in
  if ((65 <=? n) && (n <=? 90))%nat then ascii_of_nat (n + 32) else c.

Fixpoint lower (s : string) : string :=
  match s with
  | EmptyString => EmptyString
  | String c s' => String (lower_ascii c) (lower s')
  end.

(** [s.rfind(c)]: the highest index of [c] in [s]; Python's [-1] is [None]. *)
Fixpoint rfind (c : ascii) (s : string) : option nat :=
  match s with
  | EmptyString => None
  | String d s' =>
      match rfind c s' with
      | Some i => Some (S i)
      | None => if Ascii.eqb d c then Some 0 else None
      end
  end.

(** [s.split(sep)] for a one-character separator. *)
Fixpoint split (sep : ascii) (s : string) : list string :=
  match s with
  | EmptyString => [EmptyString]
  | String c s' =>
      match split sep s' with
      | [] => [String c EmptyString]
      | w :: ws => if Ascii.eqb c sep then EmptyString :: w :: ws
                   else String c w :: ws
      end
  end.

End PyStr.

(* ================================================================== *)
(** ** [pathlib.Path]: the final component and its suffix *)

Module PyPath.

(** The components of a POSIX path: the string is split on ['/'], and
    empty components and ['.'] components are dropped. *)
Definition parts (p : string) : list string :=
  filter (fun w => negb (String.eqb w "" || String.eqb w "."))
         (PyStr.split "/" p).

(** [Path(p).name]: the final component, [''] when there is none. *)
Definition name (p : string) : string := last (parts p) "".

(** [PurePath.suffix]:
<<
    name = self.name
    i = name.rfind('.')
    if 0 < i < len(name) - 1:
        return name[i:]
    else:
        return ''
>> *)
Definition suffix_of_name (nm : string) : string :=
  match PyStr.rfind "." nm with
  | Some i => if ((0 <? i) && (i <? String.length nm - 1))%nat
              then PyStr.drop i nm else ""
  | None => ""
  end.

Definition suffix (p : string) : string := suffix_of_name (name p).

End PyPath.

(* ================================================================== *)
(** ** Name resolution inside [mainCommand] *)

Module PyNames.

(** Names bound at module level in [main.py] (imports, constants, the
    function itself). *)
Definition module_globals : list string :=
  [ "os"; "logging"; "Path"; "cli"; "run"; "pdb"; "cif"; "utilities";
    "structures"; "PDB2PQRError"; "propka_lib"; "extensions";
    "__version__"; "ligff"; "HEADER_TEXT"; "_LOGGER"; "mainCommand" ].

(** Names assigned somewhere in the body of [mainCommand]: these, and
    only these, are local variables of the function. *)
Definition function_locals : list string :=
  [ "parser"; "args"; "user_names_file"; "user_ff_file"; "ph_calc_options";
    "_"; "ligand_file"; "path"; "pdbFile"; "pdblist"; "errlist";
    "extensionOpts"; "results_dict"; "header"; "lines"; "missedligands";
    "error"; "outfile"; "line"; "newline"; "inputgen"; "psize"; "method";
    "size"; "input" ].

Definition bound_in (names : list string) (x : string) : bool :=
  existsb (String.eqb x) names.

End PyNames.

(* ================================================================== *)
(** ** Python floats *)

(** [x < y] on rationals. *)
Definition Qltb (x y : Q) : bool :=
  (Qnum x * Zpos (Qden y) <? Qnum y * Zpos (Qden x))%Z.

Module PyFloat.

(** A float is a finite value (the rational it denotes), an infinity, or
    not-a-number. *)
Inductive pyfloat :=
| Finite (q : Q)
| PosInf
| NegInf
| NaN.

(** The integer literal [n] in a comparison with a float. *)
Definition of_int (n : Z) : pyfloat := Finite (inject_Z n).

(** [x < y]: every comparison with a NaN is [False]. *)
Definition lt (x y : pyfloat) : bool :=
  match x, y with
  | NaN, _ | _, NaN => false
  | Finite p, Finite q => Qltb p q
  | Finite _, PosInf => true
  | Finite _, NegInf => false
  | PosInf, _ => false
  | NegInf, NegInf => false
  | NegInf, _ => true
  end.

(** [x > y] *)
Definition gt (x y : pyfloat) : bool := lt y x.

End PyFloat.

(* ================================================================== *)
(** ** Data model of the driver *)

(** A parsed record object of [pdb.readPDB] / [cif.readCIF].  The driver
    only counts these objects and hands them to the pipeline. *)
Definition pdb_record := string.

(** The file object returned by [utilities.getPDBFile]. *)
Definition pdbfile := list string.

(** The [argparse] namespace [args].  The first block is filled in by the
    command-line parser; [isCIF] and [outname] are attributes the driver
    creates itself (lines 95 and 112) before it ever reads them, and
    [active_extensions] may be absent ([None]), present with value [None]
    ([Some None]) or present with a list.  [ph] is a float, NaN and the
    infinities included; [pdie], [sdie] and [pairene] are numbers the
    driver only stores. *)
Record Args := mkArgs
  { log_level : string;
    assign_only : bool;
    clean : bool;
    debump : bool;
    opt : bool;
    usernames : option string;
    userff : option string;
    ff : option string;
    ph : PyFloat.pyfloat;
    pka_method : option string;
    output_pqr : string;
    pdb2pka_resume : bool;
    pdie : Q;
    sdie : Q;
    pairene : Q;
    ligand : option string;
    neutraln : bool;
    neutralc : bool;
    input_pdb : string;
    whitespace : bool;
    apbs_input : bool;
    isCIF : bool;
    outname : string;
    active_extensions : option (option (list string)) }.

(** Attribute assignment on the namespace: every other field is kept. *)
Definition assign (a : Args) (debump' opt' isCIF' : bool) (outname' : string)
           (ext' : option (option (list string))) : Args :=
  {| log_level := log_level a; assign_only := assign_only a; clean := clean a;
     debump := debump'; opt := opt';
     usernames := usernames a; userff := userff a; ff := ff a; ph := ph a;
     pka_method := pka_method a; output_pqr := output_pqr a;
     pdb2pka_resume := pdb2pka_resume a; pdie := pdie a; sdie := sdie a;
     pairene := pairene a; ligand := ligand a; neutraln := neutraln a;
     neutralc := neutralc a; input_pdb := input_pdb a;
     whitespace := whitespace a; apbs_input := apbs_input a;
     isCIF := isCIF'; outname := outname'; active_extensions := ext' |}.

Definition set_debump (v : bool) (a : Args) : Args :=
  assign a v (opt a) (isCIF a) (outname a) (active_extensions a).
Definition set_opt (v : bool) (a : Args) : Args :=
  assign a (debump a) v (isCIF a) (outname a) (active_extensions a).
Definition set_isCIF (v : bool) (a : Args) : Args :=
  assign a (debump a) (opt a) v (outname a) (active_extensions a).
Definition set_outname (v : string) (a : Args) : Args :=
  assign a (debump a) (opt a) (isCIF a) v (active_extensions a).
Definition set_active_extensions (v : list string) (a : Args) : Args :=
  assign a (debump a) (opt a) (isCIF a) (outname a) (Some (Some v)).

(** The dictionary [results_dict] returned by [run.runPDB2PQR], with the
    three keys the driver reads. *)
Record Results := mkResults
  { header : string;
    lines : list string;
    missed_ligands : list string }.

(** The local variable [ph_calc_options]. *)
Inductive PhCalcOptions :=
| PropkaOptions
| Pdb2pkaOptions (output_dir : string) (clean_output : bool)
                 (pdie' sdie' pairene' : Q).

(** A [PDB2PQRError]: raised by the pipeline with some payload, or built
    by the driver around the error it caught ([PDB2PQRError(error)]). *)
Inductive pdb2pqr_error :=
| ErrPayload (s : string)
| ErrWrap (e : pdb2pqr_error).

(** Messages keep their format string and their arguments apart;
    [ArgPath p] is the object [Path(p)]. *)
Inductive fmt_arg :=
| ArgStr (s : string)
| ArgPath (p : string)
| ArgOptStr (o : option string)
| ArgNum (x : PyFloat.pyfloat)
| ArgArgs (a : Args)
| ArgErrors (l : list string)
| ArgError (e : pdb2pqr_error).

Inductive message := Msg (text : string) (args : list fmt_arg).

(** What can end the driver early.  [ParserError] is [parser.error]:
    [argparse] prints the message and exits the process with status 2. *)
Inductive exn :=
| ParserError (m : message)
| OSError (path : string)
| NameError (name : string)
| AttributeError (attr : string)
| PDB2PQRError (e : pdb2pqr_error)
| OtherError (what : string).

(** What the pipeline and the APBS input generator can raise: a
    [PDB2PQRError], or some other exception.  The parser object never
    leaves the driver, so a [ParserError] is always the driver's own. *)
Inductive collaborator_failure :=
| FailPDB2PQRError (e : pdb2pqr_error)
| FailOther (what : string).

Inductive log_severity := Debug | Info | Warn | Error.

(** The observable steps of a run, in the order they happen. *)
Inductive event :=
| EvBasicConfig (level : string)
| EvLog (sev : log_severity) (m : message)
| EvOpen (path mode : string)
| EvLoadOptions (flag : string)
| EvGetPDBFile (path : string)
| EvReadPDB (f : pdbfile)
| EvReadCIF (f : pdbfile)
| EvRun (pdblist : list pdb_record) (a : Args)
| EvWrite (path text : string)
| EvClose (path : string)
| EvApbsInput (path : string).

(** The collaborators of the driver.  [can_open p m] tells whether
    [open(p, m)] succeeds; the other fields are the functions of the
    modules [utilities], [pdb], [cif], [run] and of the APBS input
    generator, which are not part of [main.py]. *)
Record World := mkWorld
  { can_open : string -> string -> bool;
    getFFfile : option string -> string;
    getPDBFile : string -> pdbfile;
    readPDB : pdbfile -> list pdb_record * list string;
    readCIF : pdbfile -> list pdb_record * list string;
    runPDB2PQR : list pdb_record -> Args -> collaborator_failure + Results;
    apbs_inputgen : string -> option string }.

(* ================================================================== *)
(** ** The trace-and-exception monad *)

Definition M (A : Type) : Type := (list event * (exn + A))%type.

Definition ret {A} (x : A) : M A := ([], inr x).

Definition raise {A} (e : exn) : M A := ([], inl e).

Definition emit (e : event) : M unit := ([e], inr tt).

Definition bind {A B} (m : M A) (k : A -> M B) : M B :=
  match m with
  | (t, inl e) => (t, inl e)
  | (t, inr x) => let (t', r) := k x in (t ++ t', r)
  end.

Declare Scope driver_scope.
Delimit Scope driver_scope with driver.
Notation "x <- m ;; k" := (bind m (fun x => k))
  (at level 61, m at next level, right associativity) : driver_scope.
Notation "m ;; k" := (bind m (fun _ => k))
  (at level 61, right associativity) : driver_scope.
Local Open Scope driver_scope.

(** The trace of a run and its outcome. *)
Definition trace {A} (m : M A) : list event := fst m.
Definition outcome {A} (m : M A) : exn + A := snd m.

(** [if c: ...] with no [else]. *)
Definition when (c : bool) (m : M unit) : M unit := if c then m else ret tt.

(** [parser.error(message=...)] never returns. *)
Definition parser_error {A} (m : message) : M A := raise (ParserError m).

(** [open(path, mode)]; an [OSError] when the file cannot be opened. *)
Definition open_file (w : World) (path mode : string) : M unit :=
  emit (EvOpen path mode) ;;
  if can_open w path mode then ret tt else raise (OSError path).

(** Loading a name that is not a local variable of the function: it is
    looked up among the module's globals (the only name loaded this way,
    [isCIF], is no builtin), and a [NameError] is raised when it is bound
    nowhere.  The value of a bound module-level object is truthy. *)
Definition load_global (x : string) : M bool :=
  if PyNames.bound_in PyNames.module_globals x then ret true
  else raise (NameError x).


(* ================================================================== *)
(** ** The driver, stage by stage

    Each definition below is a consecutive block of the body of
    [mainCommand]; the line numbers are those of [main.py]. *)

(** [HEADER_TEXT], before [format] fills in the version. *)
Definition HEADER_TEXT : string := "
----------------------------------------------------
PDB2PQR - biomolecular structure conversion software
Version {version}
----------------------------------------------------
Please cite your use of PDB2PQR as:

  Dolinsky TJ, Nielsen JE, McCammon JA, Baker NA. PDB2PQR: an automated
  pipeline for the setup, execution, and analysis of Poisson-Boltzmann
  electrostatics calculations. Nucleic Acids Research 32 W665-W667 (2004).
".

(** Lines 42-45: logging set-up. *)
Definition setup_logging (a : Args) : M unit :=
  emit (EvBasicConfig (log_level a)) ;;
  emit (EvLog Debug (Msg "Args:  %s" [ArgArgs a])) ;;
  emit (EvLog Info (Msg HEADER_TEXT [])).

(** Lines 47-49:
<<
    if args.assign_only or args.clean:
        args.debump = False
        args.opt = False
>> *)
Definition force_flags (a : Args) : Args :=
  if assign_only a || clean a then set_opt false (set_debump false a) else a.

(** Lines 52-59: the user names file and the user force-field file are
    opened (an [open] that fails raises), and a user force field without
    user names is refused.
<<
        if args.usernames is not None:
            user_names_file = open(args.usernames, 'rt', encoding="utf-8")
        if args.userff is not None:
            user_ff_file = open(args.userff, "rt", encoding="utf-8")
            if args.usernames is None:
                parser.error(message='--usernames must be specified if using --userff')
>> *)
Definition open_user_files (w : World) (a : Args) : M unit :=
  match usernames a with
  | Some f => open_file w f "rt"
  | None => ret tt
  end ;;
  match userff a with
  | Some f =>
      open_file w f "rt" ;;
      match usernames a with
      | None => parser_error
                  (Msg "--usernames must be specified if using --userff" [])
      | Some _ => ret tt
      end
  | None => ret tt
  end.

(** Lines 51-63: the configuration checks, skipped as a whole in clean
    mode.
<<
    if not args.clean:
        ...
        if utilities.getFFfile(args.ff) == "":
            parser.error(message="Unable to load parameter file for forcefield %s" % args.ff)
        if (args.ph < 0) or (args.ph > 14):
            parser.error(message="Specified pH (%s) is outside the range [1, 14] of this program" % args.ph)
>> *)
Definition check_config (w : World) (a : Args) : M unit :=
  when (negb (clean a))
    (open_user_files w a ;;
     when (String.eqb (getFFfile w (ff a)) "")
       (parser_error (Msg "Unable to load parameter file for forcefield %s"
                          [ArgOptStr (ff a)])) ;;
     when (PyFloat.lt (ph a) (PyFloat.of_int 0) ||
           PyFloat.gt (ph a) (PyFloat.of_int 14))
       (parser_error
          (Msg "Specified pH (%s) is outside the range [1, 14] of this program"
               [ArgNum (ph a)]))).

(** [args.ff.lower()]: an [AttributeError] when [args.ff] is [None]. *)
Definition ff_lower (a : Args) : M string :=
  match ff a with
  | Some s => ret (PyStr.lower s)
  | None => raise (AttributeError "lower")
  end.

(** [args.ff is None or args.ff.lower() != 'parse'] *)
Definition ff_is_not_parse (a : Args) : bool :=
  match ff a with
  | None => true
  | Some s => negb (String.eqb (PyStr.lower s) "parse")
  end.

Definition option_is (o : option string) (s : string) : bool :=
  match o with
  | Some x => String.eqb x s
  | None => false
  end.

(** Lines 65-76: the options of the pKa method. *)
Definition ph_calc_setup (a : Args) : M (option PhCalcOptions) :=
  if option_is (pka_method a) "propka" then
    emit (EvLoadOptions "--quiet") ;;
    ret (Some PropkaOptions)
  else if option_is (pka_method a) "pdb2pka" then
    l <- ff_lower a ;;
    when (negb (String.eqb l "parse"))
      (parser_error (Msg "PDB2PKA requires the PARSE force field." [])) ;;
    ret (Some (Pdb2pkaOptions (output_pqr a) (negb (pdb2pka_resume a))
                              (pdie a) (sdie a) (pairene a)))
  else ret None.

(** Lines 78-83: the ligand file; here the [IOError] of [open] is caught
    and turned into a parser error. *)
Definition open_ligand (w : World) (a : Args) : M unit :=
  match ligand a with
  | Some f =>
      emit (EvOpen f "rt") ;;
      if can_open w f "rt" then ret tt
      else parser_error (Msg "Unable to find ligand file %s!" [ArgStr f])
  | None => ret tt
  end.

(** Lines 85-89. *)
Definition check_neutral (a : Args) : M unit :=
  when (neutraln a && ff_is_not_parse a)
    (parser_error (Msg "--neutraln option only works with PARSE forcefield!" [])) ;;
  when (neutralc a && ff_is_not_parse a)
    (parser_error (Msg "--neutralc option only works with PARSE forcefield!" [])).

(** Lines 42-89: everything the driver does before it touches the input
    structure. *)
Definition configure (w : World) (a : Args) : M Args :=
  setup_logging a ;;
  let a := force_flags a in
  check_config w a ;;
  _ <- ph_calc_setup a ;;
  open_ligand w a ;;
  check_neutral a ;;
  ret a.

(** Lines 92-100: the reader is chosen by the suffix of the input path.
<<
    path = Path(args.input_pdb)
    pdbFile = utilities.getPDBFile(args.input_pdb)
    args.isCIF = False
    if path.suffix.lower() == "cif":
        pdblist, errlist = cif.readCIF(pdbFile)
        args.isCIF = True
    else:
        pdblist, errlist = pdb.readPDB(pdbFile)
>> *)
Definition read_structure (w : World) (a : Args)
  : M (Args * (list pdb_record * list string)) :=
  let path := input_pdb a in
  emit (EvGetPDBFile (input_pdb a)) ;;
  let pdbFile := getPDBFile w (input_pdb a) in
  let a := set_isCIF false a in
  if String.eqb (PyStr.lower (PyPath.suffix path)) "cif" then
    emit (EvReadCIF pdbFile) ;;
    ret (set_isCIF true a, readCIF w pdbFile)
  else
    emit (EvReadPDB pdbFile) ;;
    ret (a, readPDB w pdbFile).

(** Lines 102-110: the parse check and the report of the per-record
    errors.  The test on line 106 reads the bare name [isCIF], not the
    attribute [args.isCIF].
<<
    if len(pdblist) == 0 and len(errlist) == 0:
        parser.error("Unable to find file %s!" % path)
    if len(errlist) != 0:
        if(isCIF):
            _LOGGER.warn("Warning: %s is a non-standard CIF file.\n", path)
        else:
            _LOGGER.warn("Warning: %s is a non-standard PDB file.\n", path)
        _LOGGER.error(errlist)
>> *)
Definition check_parsed (path : string)
           (pdblist : list pdb_record) (errlist : list string) : M unit :=
  when ((List.length pdblist =? 0) && (List.length errlist =? 0))%nat
    (parser_error (Msg "Unable to find file %s!" [ArgPath path])) ;;
  when (negb (List.length errlist =? 0)%nat)
    (c <- load_global "isCIF" ;;
     (if c : bool
      then emit (EvLog Warn (Msg "Warning: %s is a non-standard CIF file.\n"
                                 [ArgPath path]))
      else emit (EvLog Warn (Msg "Warning: %s is a non-standard PDB file.\n"
                                 [ArgPath path]))) ;;
     emit (EvLog Error (Msg "%s" [ArgErrors errlist]))).

(** Lines 112-120. *)
Definition prepare_extensions (a : Args) : Args :=
  let a := set_outname (output_pqr a) a in
  match active_extensions a with
  | None => set_active_extensions [] a
  | Some None => set_active_extensions [] a
  | Some (Some _) => a
  end.

(** Lines 122-129: the pipeline is called once; a [PDB2PQRError] is logged
    and a new [PDB2PQRError] built around it is raised, any other exception
    passes through.
<<
    try:
        results_dict = run.runPDB2PQR(pdblist, args)
        ...
    except PDB2PQRError as error:
        _LOGGER.error(error)
        raise PDB2PQRError(error)
>> *)
Definition run_stage (w : World) (pdblist : list pdb_record) (a : Args)
  : M Results :=
  emit (EvRun pdblist a) ;;
  match runPDB2PQR w pdblist a with
  | inr r => ret r
  | inl (FailPDB2PQRError e) =>
      emit (EvLog Error (Msg "%s" [ArgError e])) ;;
      raise (PDB2PQRError (ErrWrap e))
  | inl (FailOther what) => raise (OtherError what)
  end.

(** Line 139 (and 142):
    [line[0:6] + ' ' + line[6:16] + ' ' + line[16:38] + ' ' + line[38:46] + ' ' + line[46:]] *)
Definition add_whitespace (line : string) : string :=
  (PyStr.slice 0 6 line ++ " " ++ PyStr.slice 6 16 line ++ " " ++
   PyStr.slice 16 38 line ++ " " ++ PyStr.slice 38 46 line ++ " " ++
   PyStr.drop 46 line)%string.

(** Lines 137-150, the body of the output loop: what is written for one
    line, [None] when nothing is. *)
Definition write_line (a : Args) (line : string) : option string :=
  if whitespace a then
    if String.eqb (PyStr.slice 0 4 line) "ATOM" then
      Some (add_whitespace line)
    else if String.eqb (PyStr.slice 0 6 line) "HETATM" then
      Some (add_whitespace line)
    else if String.eqb (PyStr.slice 0 3 line) "TER" && isCIF a then
      None
    else
      None
  else
    if String.eqb (PyStr.slice 0 3 line) "TER" && isCIF a then None
    else Some line.

Fixpoint write_lines (a : Args) (ls : list string) : M unit :=
  match ls with
  | [] => ret tt
  | line :: rest =>
      match write_line a line with
      | Some s => emit (EvWrite (output_pqr a) s)
      | None => ret tt
      end ;;
      write_lines a rest
  end.

(** Lines 133-153. *)
Definition write_output (w : World) (a : Args) (r : Results) : M unit :=
  open_file w (output_pqr a) "w" ;;
  emit (EvWrite (output_pqr a) (header r)) ;;
  write_lines a (lines r) ;;
  when (isCIF a) (emit (EvWrite (output_pqr a) "#
")) ;;
  emit (EvClose (output_pqr a)).

(** Lines 155-165: the APBS input files. *)
Definition apbs_stage (w : World) (a : Args) : M unit :=
  when (apbs_input a)
    (emit (EvApbsInput (output_pqr a)) ;;
     match apbs_inputgen w (output_pqr a) with
     | Some what => raise (OtherError what)
     | None => ret tt
     end).

(** Lines 122-165: the pipeline, the output file, the APBS input. *)
Definition finish (w : World) (a : Args) (pdblist : list pdb_record)
  : M unit :=
  r <- run_stage w pdblist a ;;
  write_output w a r ;;
  apbs_stage w a.

(** Lines 92-165: from the reading of the input structure to the end. *)
Definition process (w : World) (a : Args) : M unit :=
  x <- read_structure w a ;;
  let '(a, (pdblist, errlist)) := x in
  check_parsed (input_pdb a) pdblist errlist ;;
  let a := prepare_extensions a in
  finish w a pdblist.

(** [mainCommand], after [parser.parse_args()] has produced [args]. *)
Definition mainCommand (w : World) (a : Args) : M unit :=
  a <- configure w a ;;
  process w a.

(* ================================================================== *)
(** ** Sample worlds and configurations *)

Module Sample.

(** A configuration with no ligand and no pKa method, in which the mode
    flags, the whitespace option, the pH, the user force-field file,
    the force field and the input path vary. *)
Definition config (clean' assign_only' whitespace' : bool) (ph' : Q)
           (userff' : option string) (ff' input' : string) : Args :=
  {| log_level := "INFO"; assign_only := assign_only'; clean := clean';
     debump := true; opt := true; usernames := None; userff := userff';
     ff := Some ff'; ph := PyFloat.Finite ph'; pka_method := None;
     output_pqr := "out.pqr"; pdb2pka_resume := false; pdie := 8%Q;
     sdie := 80%Q; pairene := 1%Q; ligand := None; neutraln := false;
     neutralc := false; input_pdb := input'; whitespace := whitespace';
     apbs_input := false; isCIF := false; outname := "";
     active_extensions := None |}.

(** The plain run: pH 7, PARSE, no user files, a [.pdb] input. *)
Definition args : Args :=
  config false false false 7%Q None "PARSE" "1abc.pdb".

Definition atom_line : string :=
  "ATOM      1  N   MET A   1      27.340  24.430   2.614  1.00  9.67".

(** A world in which every file can be opened, the built-in force
    fields resolve, both readers return the lists [parsed], and the
    pipeline returns [result]. *)
Definition world (parsed : list pdb_record * list string)
           (result : collaborator_failure + Results) : World :=
  {| can_open := fun _ _ => true;
     getFFfile := fun o => if option_is o "PARSE" then "dat/PARSE.DAT"
                           else "";
     getPDBFile := fun _ => [];
     readPDB := fun _ => parsed;
     readCIF := fun _ => parsed;
     runPDB2PQR := fun _ _ => result;
     apbs_inputgen := fun _ => None |}.

Definition results : Results :=
  {| header := "REMARK   1 PQR file generated by PDB2PQR";
     lines := [atom_line; "TER"; "END"];
     missed_ligands := [] |}.

(** One record parsed, no per-record error, pipeline succeeds. *)
Definition good_world : World := world (["ATOM"], []) (inr results).

End Sample.

(* ================================================================== *)
(** ** Properties of traces and outcomes *)

(** The steps that touch the input structure: fetching and reading the
    structure file, and the pipeline. *)
Definition is_structure_event (e : event) : bool :=
  match e with
  | EvGetPDBFile _ | EvReadPDB _ | EvReadCIF _ | EvRun _ _ => true
  | _ => false
  end.

(** The steps that touch the output file. *)
Definition is_output_event (e : event) : bool :=
  match e with
  | EvOpen _ mode => String.eqb mode "w"
  | EvWrite _ _ | EvClose _ => true
  | _ => false
  end.

Definition is_run_event (e : event) : bool :=
  match e with
  | EvRun _ _ => true
  | _ => false
  end.

(** The steps [configure] can take. *)
Definition is_setup_event (e : event) : bool :=
  match e with
  | EvBasicConfig _ | EvLog Debug _ | EvLog Info _ | EvLoadOptions _ => true
  | EvOpen _ mode => String.eqb mode "rt"
  | _ => false
  end.

(** The CIF reader is called. *)
Definition is_cif_read (e : event) : bool :=
  match e with
  | EvReadCIF _ => true
  | _ => false
  end.

(** A warning or an error reaches the log. *)
Definition is_complaint (e : event) : bool :=
  match e with
  | EvLog Warn _ | EvLog Error _ => true
  | _ => false
  end.

(** The steps that follow the call of the pipeline: the log of its
    error, the output file, the APBS input. *)
Definition is_late_event (e : event) : bool :=
  match e with
  | EvLog _ _ | EvApbsInput _ => true
  | _ => is_output_event e
  end.

Definition structure_processing_attempted (t : list event) : bool :=
  existsb is_structure_event t.

(** Every event of the run satisfies [P]. *)
Definition emits_only {A} (P : event -> bool) (m : M A) : Prop :=
  forallb P (trace m) = true.

(** Every exception the run can end with satisfies [Q]. *)
Definition raises_only {A} (Q : exn -> bool) (m : M A) : Prop :=
  forall e, outcome m = inl e -> Q e = true.

Definition is_parser_error (e : exn) : bool :=
  match e with
  | ParserError _ => true
  | _ => false
  end.


(** How many times the pipeline was called. *)
Definition count_run (t : list event) : nat :=
  List.length (filter is_run_event t).

(** The lines the run wrote to [path], in order. *)
Fixpoint written (path : string) (t : list event) : list string :=
  match t with
  | [] => []
  | EvWrite p s :: t' =>
      if String.eqb p path then s :: written path t' else written path t'
  | _ :: t' => written path t'
  end.

(** Two readings of "the run aborts with a fatal failure": the run ends
    with a parser error; the run ends with an exception without having
    called the pipeline. *)
Definition ends_in_parser_error (m : M unit) : Prop :=
  exists msg, outcome m = inl (ParserError msg).

Definition aborted_before_run (m : M unit) : Prop :=
  (exists e, outcome m = inl e) /\ count_run (trace m) = 0.

(** "The run aborts if and only if the file contains zero parseable
    records", for runs whose configuration went through and whose reader
    returned the records [l] and the per-record errors [e]. *)
Definition aborts_iff_no_records (aborts : M unit -> Prop) : Prop :=
  forall w a a1 a2 l e,
    outcome (configure w a) = inr a1 ->
    outcome (read_structure w a1) = inr (a2, (l, e)) ->
    (aborts (mainCommand w a) <-> l = []).

(** The user files named by the configuration can be opened, and a user
    force field comes with a user names file: the steps of [check_config]
    that precede the force-field and pH checks go through. *)
Definition user_files_ok (w : World) (a : Args) : Prop :=
  (forall f, usernames a = Some f -> can_open w f "rt" = true) /\
  (forall f, userff a = Some f ->
             can_open w f "rt" = true /\ usernames a <> None).

(** An offset into a line, clipped to the line's length as a slice bound
    is. *)
Definition clip (k : nat) (line : string) : nat :=
  Nat.min k (String.length line).




Definition ff_message (o : option string) : message :=
  Msg "Unable to load parameter file for forcefield %s" [ArgOptStr o].

Definition usernames_message : message :=
  Msg "--usernames must be specified if using --userff" [].

Definition not_found_message (path : string) : message :=
  Msg "Unable to find file %s!" [ArgPath path].



(* ================================================================== *)
(** ** Notions for the stages around the pipeline *)

Definition pdb2pka_message : message :=
  Msg "PDB2PKA requires the PARSE force field." [].

Definition ligand_message (f : string) : message :=
  Msg "Unable to find ligand file %s!" [ArgStr f].

Definition neutraln_message : message :=
  Msg "--neutraln option only works with PARSE forcefield!" [].

Definition neutralc_message : message :=
  Msg "--neutralc option only works with PARSE forcefield!" [].

(** The tests of lines 138 and 141. *)
Definition is_atom_line (line : string) : bool :=
  String.eqb (PyStr.slice 0 4 line) "ATOM" ||
  String.eqb (PyStr.slice 0 6 line) "HETATM".

(** What the output loop writes for the lines [ls], in order. *)
Definition lines_written (a : Args) (ls : list string) : list string :=
  flat_map (fun line => match write_line a line with
                        | Some s => [s]
                        | None => []
                        end) ls.

(** The value of [args.active_extensions] after lines 116-119. *)
Definition extensions_or_empty (a : Args) : list string :=
  match active_extensions a with
  | Some (Some l) => l
  | _ => []
  end.

(** The namespace as it stands when the pipeline is called. *)
Definition pipeline_args (a : Args) : Args :=
  prepare_extensions (set_isCIF false (force_flags a)).

(** The steps of lines 133-153 on the output file [output_pqr a], for a
    non-CIF run. *)
Definition output_events (a : Args) (r : Results) : list event :=
  [EvOpen (output_pqr a) "w"; EvWrite (output_pqr a) (header r)] ++
  map (EvWrite (output_pqr a)) (lines_written a (lines r)) ++
  [EvClose (output_pqr a)].

(** The configuration reaches the check of the neutral termini: the
    checks of lines 51-63, the pKa options and the ligand file went
    through. *)
Definition reaches_neutral_check (w : World) (a : Args) : Prop :=
  outcome (check_config w (force_flags a)) = inr tt /\
  (exists o, outcome (ph_calc_setup (force_flags a)) = inr o) /\
  outcome (open_ligand w (force_flags a)) = inr tt.

Module Scenario.

(** The namespace [a] with the pKa method, the ligand, the neutral
    termini, the user names file and the APBS option replaced. *)
Definition options (a : Args) (pka' lig' names' : option string)
           (neutraln' neutralc' apbs' : bool) : Args :=
  {| log_level := log_level a; assign_only := assign_only a; clean := clean a;
     debump := debump a; opt := opt a;
     usernames := names'; userff := userff a; ff := ff a; ph := ph a;
     pka_method := pka'; output_pqr := output_pqr a;
     pdb2pka_resume := pdb2pka_resume a; pdie := pdie a; sdie := sdie a;
     pairene := pairene a; ligand := lig'; neutraln := neutraln';
     neutralc := neutralc'; input_pdb := input_pdb a;
     whitespace := whitespace a; apbs_input := apbs';
     isCIF := isCIF a; outname := outname a;
     active_extensions := active_extensions a |}.


(** The world [w] in which the file [missing] cannot be opened. *)
Definition without_file (missing : string) (w : World) : World :=
  {| can_open := fun p m => negb (String.eqb p missing) && can_open w p m;
     getFFfile := getFFfile w;
     getPDBFile := getPDBFile w;
     readPDB := readPDB w;
     readCIF := readCIF w;
     runPDB2PQR := runPDB2PQR w;
     apbs_inputgen := apbs_inputgen w |}.

(** The sample run with the AMBER force field, which does not resolve in
    the sample world; used in clean mode only. *)
Definition amber (clean' : bool) : Args :=
  Sample.config clean' false false 7%Q None "AMBER" "1abc.pdb".

End Scenario.

(* ================================================================== *)
(** ** Facts about strings and paths *)

Module PyStrFacts.
Import PyStr.

Lemma take_drop (n : nat) (s : string) : (take n s ++ drop n s)%string = s.
Proof.
  revert s; induction n as [|n IH]; intros [|c s]; simpl; try reflexivity.
  now rewrite IH.
Qed.

Lemma drop_drop (n m : nat) (s : string) : drop m (drop n s) = drop (n + m) s.
Proof.
  revert s; induction n as [|n IH]; intros s; simpl; [reflexivity|].
  destruct s as [|c s]; [now destruct m|]. apply IH.
Qed.

Lemma slice_drop (i j : nat) (s : string) :
  i <= j -> (slice i j s ++ drop j s)%string = drop i s.
Proof.
  intros Hij. unfold slice.
  replace (drop j s) with (drop (j - i) (drop i s)).
  - apply take_drop.
  - rewrite drop_drop. f_equal. lia.
Qed.

(** The five slices of lines 139 and 142 tile the line. *)
Lemma slices_tile (line : string) :
  (slice 0 6 line ++ slice 6 16 line ++ slice 16 38 line ++
   slice 38 46 line ++ drop 46 line)%string = line.
Proof.
  rewrite (slice_drop 38 46) by lia.
  rewrite (slice_drop 16 38) by lia.
  rewrite (slice_drop 6 16) by lia.
  rewrite (slice_drop 0 6) by lia.
  reflexivity.
Qed.

Lemma rfind_drop (c : ascii) (s : string) (i : nat) :
  rfind c s = Some i -> exists t, drop i s = String c t.
Proof.
  revert i; induction s as [|d s IH]; intros i; simpl; [discriminate|].
  destruct (rfind c s) as [j|] eqn:Hj.
  - intros [= <-]. simpl. now apply IH.
  - destruct (Ascii.eqb d c) eqn:Hd; [|discriminate].
    intros [= <-]. apply Ascii.eqb_eq in Hd. subst d. now exists s.
Qed.

End PyStrFacts.

Module PyPathFacts.
Import PyPath.

(** A suffix is empty or starts with the dot. *)
Lemma suffix_of_name_shape (nm : string) :
  suffix_of_name nm = "" \/ exists t, suffix_of_name nm = String "." t.
Proof.
  unfold suffix_of_name.
  destruct (PyStr.rfind "." nm) as [i|] eqn:Hi; [|now left].
  destruct ((0 <? i) && (i <? String.length nm - 1))%nat; [|now left].
  right. now apply PyStrFacts.rfind_drop.
Qed.

(** So its lower-cased form is never the dot-less string ["cif"]. *)
Lemma lower_suffix_not_cif (p : string) :
  String.eqb (PyStr.lower (suffix p)) "cif" = false.
Proof.
  unfold suffix.
  destruct (suffix_of_name_shape (name p)) as [-> | [t ->]]; reflexivity.
Qed.

End PyPathFacts.

(* ================================================================== *)
(** ** Facts about the monad *)

Section MonadFacts.
Context {A B : Type}.
Implicit Types (m : M A) (k : A -> M B).

Lemma trace_bind m k :
  trace (bind m k) =
  trace m ++ match outcome m with
             | inr x => trace (k x)
             | inl _ => []
             end.
Proof.
  destruct m as [t [e|x]]; simpl.
  - now rewrite app_nil_r.
  - now destruct (k x).
Qed.

Lemma outcome_bind m k :
  outcome (bind m k) =
  match outcome m with
  | inr x => outcome (k x)
  | inl e => inl e
  end.
Proof.
  destruct m as [t [e|x]]; simpl; [reflexivity|]. now destruct (k x).
Qed.

Lemma bind_raised m k e :
  outcome m = inl e -> bind m k = (trace m, inl e).
Proof. destruct m as [t [e'|x]]; simpl; congruence. Qed.

Lemma bind_assoc {C} m k (h : B -> M C) :
  bind (bind m k) h = bind m (fun x => bind (k x) h).
Proof.
  destruct m as [t [e|x]]; simpl; [reflexivity|].
  destruct (k x) as [t' [e|y]]; simpl; [reflexivity|].
  destruct (h y) as [t'' r]. now rewrite app_assoc.
Qed.

Lemma emits_only_bind P m k :
  emits_only P m -> (forall x, emits_only P (k x)) -> emits_only P (bind m k).
Proof.
  unfold emits_only. intros Hm Hk. rewrite trace_bind, forallb_app, Hm.
  destruct (outcome m); [reflexivity | apply Hk].
Qed.

Lemma raises_only_bind Q m k :
  raises_only Q m -> (forall x, raises_only Q (k x)) ->
  raises_only Q (bind m k).
Proof.
  unfold raises_only. intros Hm Hk e. rewrite outcome_bind.
  destruct (outcome m) as [e'|x] eqn:Hx.
  - intros [= <-]. now apply Hm.
  - apply Hk.
Qed.

End MonadFacts.

Lemma trace_emit_bind {B} e (k : unit -> M B) :
  trace (bind (emit e) k) = e :: trace (k tt).
Proof. simpl. now destruct (k tt). Qed.

Lemma emits_only_ret {A} P (x : A) : emits_only P (ret x).
Proof. reflexivity. Qed.

Lemma emits_only_raise {A} P e : emits_only P (@raise A e).
Proof. reflexivity. Qed.

Lemma emits_only_emit P e : P e = true -> emits_only P (emit e).
Proof. unfold emits_only; simpl. now intros ->. Qed.

Lemma emits_only_when P c m :
  emits_only P m -> emits_only P (when c m).
Proof. destruct c; [trivial | reflexivity]. Qed.

Lemma raises_only_ret {A} Q (x : A) : raises_only Q (ret x).
Proof. intros e; discriminate. Qed.

Lemma raises_only_emit Q e : raises_only Q (emit e).
Proof. intros e'; discriminate. Qed.

Lemma raises_only_raise {A} (Q : exn -> bool) e :
  Q e = true -> raises_only Q (@raise A e).
Proof. intros H e'; simpl. now intros [= <-]. Qed.

Lemma raises_only_when Q c m :
  (c = true -> raises_only Q m) -> raises_only Q (when c m).
Proof. destruct c; [auto | intros _ e; discriminate]. Qed.

Lemma emits_only_weaken {A} (P P' : event -> bool) (m : M A) :
  (forall e, P e = true -> P' e = true) -> emits_only P m -> emits_only P' m.
Proof.
  unfold emits_only. intros HPP'. rewrite !forallb_forall. auto.
Qed.

Lemma emits_only_In {A} (P : event -> bool) (m : M A) e :
  emits_only P m -> In e (trace m) -> P e = true.
Proof. unfold emits_only. rewrite forallb_forall. auto. Qed.

(** One step of a proof that a computation emits only events in [P]:
    binds split into independent goals, tests are decided case by case. *)
Ltac emits_step :=
  match goal with
  | |- emits_only _ (bind _ _) => apply emits_only_bind; [|intros]
  | |- emits_only _ (when _ _) => apply emits_only_when
  | |- emits_only _ (ret _) => apply emits_only_ret
  | |- emits_only _ (raise _) => apply emits_only_raise
  | |- emits_only _ (parser_error _) => apply emits_only_raise
  | |- emits_only _ (emit _) => apply emits_only_emit; reflexivity
  | |- emits_only _ (match ?x with _ => _ end) => destruct x
  | |- emits_only _ (let _ := _ in _) => cbv zeta
  end.

(** The same for the exceptions a computation can end with. *)
Ltac raises_step :=
  match goal with
  | |- raises_only _ (bind _ _) => apply raises_only_bind; [|intros]
  | |- raises_only _ (when _ _) =>
      apply raises_only_when; intros ?; try congruence
  | |- raises_only _ (ret _) => apply raises_only_ret
  | |- raises_only _ (emit _) => apply raises_only_emit
  | |- raises_only _ (raise _) => apply raises_only_raise; reflexivity
  | |- raises_only _ (parser_error _) => apply raises_only_raise; reflexivity
  | |- raises_only _ (match ?x with _ => _ end) => destruct x
  | |- raises_only _ (let _ := _ in _) => cbv zeta
  end.

(* ================================================================== *)
(** ** Facts about the stages *)

Section StageFacts.
Variable w : World.
Implicit Types (a : Args).

(** [force_flags] only touches [debump] and [opt]. *)
Lemma force_flags_frame a :
  clean (force_flags a) = clean a /\
  usernames (force_flags a) = usernames a /\
  userff (force_flags a) = userff a /\
  ff (force_flags a) = ff a /\
  ph (force_flags a) = ph a /\
  input_pdb (force_flags a) = input_pdb a.
Proof. unfold force_flags. destruct (assign_only a || clean a); auto 10. Qed.

Lemma force_flags_forced a :
  assign_only a || clean a = true ->
  debump (force_flags a) = false /\ opt (force_flags a) = false.
Proof. unfold force_flags. intros ->. split; reflexivity. Qed.

(** Before the input structure is touched, the driver only sets up
    logging, opens the user and ligand files for reading, and loads the
    PROPKA options. *)
Lemma configure_emits_setup a : emits_only is_setup_event (configure w a).
Proof.
  unfold configure, setup_logging, check_config, open_user_files,
    ph_calc_setup, ff_lower,
    open_ligand, check_neutral, open_file.
  repeat emits_step.
Qed.

(** [configure] hands on the namespace with the flags forced. *)
Lemma configure_result a a1 :
  outcome (configure w a) = inr a1 -> a1 = force_flags a.
Proof.
  unfold configure. rewrite !outcome_bind.
  repeat match goal with
         | |- context [match outcome ?m with _ => _ end] =>
             destruct (outcome m); try discriminate
         end.
  simpl. congruence.
Qed.

(** A failed configuration check ends [configure], and the whole run. *)
Lemma configure_check_failed a e :
  outcome (check_config w (force_flags a)) = inl e ->
  outcome (configure w a) = inl e.
Proof.
  intros H. unfold configure. rewrite outcome_bind. simpl.
  rewrite outcome_bind, H. reflexivity.
Qed.

Lemma mainCommand_configure_failed a e :
  outcome (configure w a) = inl e ->
  mainCommand w a = (trace (configure w a), inl e).
Proof. intros H. unfold mainCommand. now apply bind_raised. Qed.

Lemma mainCommand_configured a a1 :
  outcome (configure w a) = inr a1 ->
  trace (mainCommand w a) = trace (configure w a) ++ trace (process w a1) /\
  outcome (mainCommand w a) = outcome (process w a1).
Proof.
  intros H. unfold mainCommand. rewrite trace_bind, outcome_bind, H. auto.
Qed.

End StageFacts.

Lemma Qltb_lt (x y : Q) : Qltb x y = true <-> (x < y)%Q.
Proof. unfold Qltb, Qlt. apply Z.ltb_lt. Qed.


Lemma ph_outside_test (q : Q) :
  (q < 0 \/ 14 < q)%Q <-> Qltb q 0 || Qltb 14 q = true.
Proof. rewrite orb_true_iff, !Qltb_lt. reflexivity. Qed.




Lemma forallb_excludes {X} (P Q : X -> bool) (l : list X) :
  (forall x, P x = true -> Q x = false) ->
  forallb P l = true -> existsb Q l = false.
Proof.
  intros HPQ. induction l as [|x l IH]; simpl; [reflexivity|].
  rewrite andb_true_iff. intros [Hx Hl]. now rewrite (HPQ x Hx), IH.
Qed.

Section ConfigFacts.
Variable w : World.
Implicit Types (a : Args).

Lemma open_user_files_ok a :
  user_files_ok w a -> outcome (open_user_files w a) = inr tt.
Proof.
  intros [Hn Hf]. unfold open_user_files, open_file.
  destruct (usernames a) as [n|] eqn:Hu.
  - rewrite !outcome_bind; simpl. rewrite (Hn n eq_refl); simpl.
    destruct (userff a) as [f|]; [|reflexivity].
    rewrite !outcome_bind; simpl.
    destruct (Hf f eq_refl) as [-> _]. reflexivity.
  - rewrite !outcome_bind; simpl.
    destruct (userff a) as [f|]; [|reflexivity].
    now destruct (Hf f eq_refl) as [_ []].
Qed.

(** A user force field without user names: the force-field file is
    opened, and then the parser error is raised. *)
Lemma open_user_files_userff a f :
  userff a = Some f -> usernames a = None ->
  outcome (open_user_files w a) =
  if can_open w f "rt" then inl (ParserError usernames_message)
  else inl (OSError f).
Proof.
  intros Hf Hn. unfold open_user_files, open_file. rewrite Hf, Hn.
  rewrite !outcome_bind; simpl. now destruct (can_open w f "rt").
Qed.

Lemma check_config_clean a : clean a = true -> check_config w a = ret tt.
Proof. unfold check_config. now intros ->. Qed.

Lemma check_config_userff a f :
  clean a = false -> userff a = Some f -> usernames a = None ->
  outcome (check_config w a) =
  if can_open w f "rt" then inl (ParserError usernames_message)
  else inl (OSError f).
Proof.
  intros Hc Hf Hn. unfold check_config. rewrite Hc; simpl.
  rewrite outcome_bind, (open_user_files_userff a f Hf Hn).
  now destruct (can_open w f "rt").
Qed.

(** An unresolved force field outside clean mode: the check fails, with
    the force-field message when the user files went through. *)
Lemma check_config_ff a :
  clean a = false -> getFFfile w (ff a) = "" ->
  (exists e, outcome (check_config w a) = inl e) /\
  (user_files_ok w a ->
   outcome (check_config w a) = inl (ParserError (ff_message (ff a)))).
Proof.
  intros Hc Hff. unfold check_config. rewrite Hc, Hff; simpl.
  rewrite outcome_bind. split.
  - destruct (outcome (open_user_files w a)) as [e|[]]; simpl; eauto.
  - intros Hok. now rewrite (open_user_files_ok a Hok).
Qed.


(** Whenever [configure] fails, the run ends there, before any step on
    the input structure. *)
Lemma configure_failed_no_structure a e :
  outcome (configure w a) = inl e ->
  outcome (mainCommand w a) = inl e /\
  structure_processing_attempted (trace (mainCommand w a)) = false.
Proof.
  intros H. rewrite (mainCommand_configure_failed w a e H). split; [easy|].
  apply forallb_excludes with (P := is_setup_event).
  - now intros [].
  - apply configure_emits_setup.
Qed.

Lemma configure_has_no_run_event a :
  existsb is_run_event (trace (configure w a)) = false.
Proof.
  apply forallb_excludes with (P := is_setup_event).
  - now intros [].
  - apply configure_emits_setup.
Qed.

Lemma configure_has_no_complaint a :
  existsb is_complaint (trace (configure w a)) = false.
Proof.
  apply forallb_excludes with (P := is_setup_event).
  - now intros [| [] | | | | | | | | | ].
  - apply configure_emits_setup.
Qed.

Lemma configure_has_no_output_event a :
  existsb is_output_event (trace (configure w a)) = false.
Proof.
  apply forallb_excludes with (P := is_setup_event).
  - intros []; simpl; try easy.
    intros H. apply String.eqb_eq in H. now subst.
  - apply configure_emits_setup.
Qed.

End ConfigFacts.

(** *** After configuration *)

Section ProcessFacts.
Variable w : World.
Implicit Types (a : Args).

(** The reader is always the PDB reader: the suffix test of line 96
    compares a string that starts with a dot with ["cif"]. *)
Lemma read_structure_eq a :
  read_structure w a =
  ([EvGetPDBFile (input_pdb a); EvReadPDB (getPDBFile w (input_pdb a))],
   inr (set_isCIF false a, readPDB w (getPDBFile w (input_pdb a)))).
Proof.
  unfold read_structure; cbv zeta.
  rewrite PyPathFacts.lower_suffix_not_cif. reflexivity.
Qed.

(** The three ways through lines 102-110. *)
Lemma check_parsed_eq path (l : list pdb_record) (e : list string) :
  check_parsed path l e =
  match l, e with
  | [], [] => ([], inl (ParserError (not_found_message path)))
  | _, _ :: _ => ([], inl (NameError "isCIF"))
  | _ :: _, [] => ([], inr tt)
  end.
Proof. destruct l, e; reflexivity. Qed.

Lemma write_lines_never_raises a ls : outcome (write_lines a ls) = inr tt.
Proof.
  induction ls as [|l ls IH]; simpl; [reflexivity|].
  rewrite outcome_bind.
  destruct (write_line a l); simpl; exact IH.
Qed.

Lemma write_lines_emits a ls :
  emits_only is_output_event (write_lines a ls).
Proof.
  induction ls as [|l ls IH]; simpl; repeat emits_step; exact IH.
Qed.

(** [process], with the reader and the parse check resolved. *)
Lemma process_eq a :
  process w a =
  let f := getPDBFile w (input_pdb a) in
  match readPDB w f with
  | ([], []) => ([EvGetPDBFile (input_pdb a); EvReadPDB f],
                 inl (ParserError (not_found_message (input_pdb a))))
  | (_, _ :: _) => ([EvGetPDBFile (input_pdb a); EvReadPDB f],
                    inl (NameError "isCIF"))
  | (r :: l, []) =>
      bind ([EvGetPDBFile (input_pdb a); EvReadPDB f], inr tt)
           (fun _ => finish w (prepare_extensions (set_isCIF false a))
                            (r :: l))
  end.
Proof.
  unfold process. rewrite read_structure_eq. cbv zeta.
  destruct (readPDB w (getPDBFile w (input_pdb a))) as [l e].
  unfold bind at 1.
  change (input_pdb (set_isCIF false a)) with (input_pdb a).
  rewrite check_parsed_eq.
  destruct l as [|r l], e as [|x e]; try reflexivity.
  simpl. now destruct (finish w _ _).
Qed.

End ProcessFacts.

Section FinishFacts.
Variable w : World.
Implicit Types (a : Args) (l : list pdb_record).

(** After the parse check no parser error is raised any more. *)
Lemma finish_raises_no_parser_error a l :
  raises_only (fun e => negb (is_parser_error e)) (finish w a l).
Proof.
  unfold finish, run_stage, write_output, apbs_stage, open_file.
  repeat raises_step.
  intros e. now rewrite write_lines_never_raises.
Qed.

Lemma after_run_emits_late a (x : collaborator_failure + Results) :
  emits_only is_late_event
    (r <- match x with
          | inr r => ret r
          | inl (FailPDB2PQRError e) =>
              emit (EvLog Error (Msg "%s" [ArgError e])) ;;
              raise (PDB2PQRError (ErrWrap e))
          | inl (FailOther what) => raise (OtherError what)
          end ;;
     write_output w a r ;; apbs_stage w a).
Proof.
  unfold write_output, apbs_stage, open_file.
  repeat emits_step.
  apply emits_only_weaken with (P := is_output_event).
  - intros ev H. destruct ev; simpl in *; congruence.
  - apply write_lines_emits.
Qed.

(** The pipeline is called first, and once. *)
Lemma finish_trace a l :
  exists rest,
    trace (finish w a l) = EvRun l a :: rest /\
    forallb is_late_event rest = true.
Proof.
  unfold finish, run_stage.
  rewrite bind_assoc, trace_emit_bind.
  eexists; split; [reflexivity|].
  apply (after_run_emits_late a (runPDB2PQR w l a)).
Qed.

(** A [PDB2PQRError] of the pipeline: it is logged, a [PDB2PQRError]
    built around it is raised, and nothing else happens. *)
Lemma finish_pipeline_error a l e :
  runPDB2PQR w l a = inl (FailPDB2PQRError e) ->
  finish w a l =
  ([EvRun l a; EvLog Error (Msg "%s" [ArgError e])],
   inl (PDB2PQRError (ErrWrap e))).
Proof. intros H. unfold finish, run_stage. simpl. now rewrite H. Qed.

End FinishFacts.

(** *** The whole run *)

Section RunFacts.
Variable w : World.
Implicit Types (a : Args) (l : list pdb_record).

(** The namespace the pipeline receives, and the events around its
    call: whenever the pipeline is called at all, configuration went
    through, the reader returned records and no per-record error, and
    the run is the configuration, the reading, and [finish]. *)
Lemma mainCommand_run_event a l a' :
  In (EvRun l a') (trace (mainCommand w a)) ->
  a' = prepare_extensions (set_isCIF false (force_flags a)) /\
  readPDB w (getPDBFile w (input_pdb a)) = (l, []) /\
  trace (mainCommand w a) =
    trace (configure w a) ++
    [EvGetPDBFile (input_pdb a); EvReadPDB (getPDBFile w (input_pdb a))] ++
    trace (finish w a' l) /\
  outcome (mainCommand w a) = outcome (finish w a' l).
Proof.
  intros Hin.
  destruct (outcome (configure w a)) as [e|a1] eqn:Hc.
  - rewrite (mainCommand_configure_failed w a e Hc) in Hin. simpl in Hin.
    apply (emits_only_In _ _ _ (configure_emits_setup w a)) in Hin.
    discriminate.
  - destruct (mainCommand_configured w a a1 Hc) as [Ht Ho].
    pose proof (configure_result w a a1 Hc) as ->.
    rewrite Ht, Ho in *. clear Ht Ho.
    apply in_app_or in Hin. destruct Hin as [Hin|Hin].
    { apply (emits_only_In _ _ _ (configure_emits_setup w a)) in Hin.
      discriminate. }
    rewrite process_eq in *. cbv zeta in *.
    destruct (force_flags_frame a) as (_ & _ & _ & _ & _ & Hp).
    rewrite Hp in *.
    destruct (readPDB w (getPDBFile w (input_pdb a))) as [[|r l0] [|x e]];
      try (destruct Hin as [Hin|[Hin|[]]]; discriminate).
    rewrite trace_bind in Hin. cbn [trace outcome fst snd app] in Hin.
    destruct Hin as [Hin|[Hin|Hin]]; try discriminate.
    destruct (finish_trace w (prepare_extensions
                                (set_isCIF false (force_flags a))) (r :: l0))
      as (rest & Hrest & Hlate).
    rewrite Hrest in Hin. destruct Hin as [Hin|Hin].
    + injection Hin as <- <-. rewrite trace_bind, outcome_bind. auto.
    + rewrite forallb_forall in Hlate. apply Hlate in Hin. discriminate.
Qed.

End RunFacts.

Lemma existsb_false_count (t : list event) :
  existsb is_run_event t = false -> count_run t = 0.
Proof.
  unfold count_run. induction t as [|e t IH]; simpl; [reflexivity|].
  destruct (is_run_event e); simpl; [discriminate | exact IH].
Qed.

Lemma count_run_app (t t' : list event) :
  count_run (t ++ t') = count_run t + count_run t'.
Proof. unfold count_run. now rewrite filter_app, length_app. Qed.

Lemma late_events_no_run (t : list event) :
  forallb is_late_event t = true -> existsb is_run_event t = false.
Proof. apply forallb_excludes. now intros []. Qed.

(* ================================================================== *)
(** ** The parse check (lines 102-110) *)

(** C1, as the specification states it, does not hold.  With configuration
    passed, "the run aborts iff the reader returned zero records" fails
    under both readings of "aborts": a file with no record but a
    per-record error does not end in the parser error of line 103, and a
    file with a record and a per-record error ends before the pipeline is
    called although a record was parsed. *)
Lemma parse_check_not_iff_no_records :
  ~ aborts_iff_no_records ends_in_parser_error /\
  ~ aborts_iff_no_records aborted_before_run.
Proof.
  split; intros H.
  - pose (w := Sample.world ([], ["malformed record"]) (inr Sample.results)).
    destruct (H w Sample.args (force_flags Sample.args)
                (set_isCIF false (force_flags Sample.args))
                [] ["malformed record"] eq_refl eq_refl) as [_ Hback].
    destruct (Hback eq_refl) as [msg Hmsg]. discriminate Hmsg.
  - pose (w := Sample.world (["ATOM"], ["malformed record"])
                            (inr Sample.results)).
    destruct (H w Sample.args (force_flags Sample.args)
                (set_isCIF false (force_flags Sample.args))
                ["ATOM"] ["malformed record"] eq_refl eq_refl) as [Hto _].
    assert (Hab : aborted_before_run (mainCommand w Sample.args)).
    { split; [now exists (NameError "isCIF") | reflexivity]. }
    specialize (Hto Hab). discriminate Hto.
Qed.

(** The cases of the parse check that are settled by the shape of the
    two lists alone. *)
Ltac parse_case :=
  repeat split; intros;
  repeat match goal with
         | H : exists _, _ |- _ => destruct H
         | H : _ /\ _ |- _ => destruct H
         end;
  try discriminate; try congruence; eauto.

(** C1, amended.  With configuration passed and the reader returning the
    records [l] and the per-record errors [e]: the run ends in a parser
    error exactly when both lists are empty, the error then being
    "Unable to find file"; and with at least one record and no per-record
    error the pipeline is called on the records. *)
Theorem parse_check_fatal_iff_nothing_read
        (w : World) (a a1 a2 : Args) (l : list pdb_record) (e : list string) :
  outcome (configure w a) = inr a1 ->
  outcome (read_structure w a1) = inr (a2, (l, e)) ->
  (ends_in_parser_error (mainCommand w a) <-> l = [] /\ e = []) /\
  (l = [] /\ e = [] ->
   outcome (mainCommand w a) =
   inl (ParserError (not_found_message (input_pdb a)))) /\
  (l <> [] -> e = [] ->
   In (EvRun l (prepare_extensions a2)) (trace (mainCommand w a))).
Proof.
  intros Hc Hr.
  destruct (mainCommand_configured w a a1 Hc) as [Ht Ho].
  pose proof (configure_result w a a1 Hc) as ->.
  rewrite read_structure_eq in Hr. simpl in Hr.
  injection Hr as <- Hread.
  unfold ends_in_parser_error.
  rewrite Ht, Ho, process_eq. cbv zeta.
  destruct (force_flags_frame a) as (_ & _ & _ & _ & _ & Hp).
  rewrite Hp in *. rewrite Hread.
  destruct l as [|r l], e as [|x e].
  - simpl outcome. parse_case.
  - simpl outcome. parse_case.
  - rewrite outcome_bind, trace_bind. cbn [outcome trace fst snd].
    split; [split|split].
    + intros [msg Hmsg].
      now apply (finish_raises_no_parser_error w _ _ _) in Hmsg.
    + now intros [Hl _].
    + now intros [Hl _].
    + intros _ _. apply in_or_app. right. simpl. right. right.
      destruct (finish_trace w (prepare_extensions
                                  (set_isCIF false (force_flags a))) (r :: l))
        as (rest & -> & _).
      now left.
  - simpl outcome. parse_case.
Qed.

(** The parse check at work: an input that yields nothing is refused,
    an input with one clean record reaches the pipeline. *)
Lemma parse_check_fatal_iff_nothing_read_witness :
  outcome (mainCommand (Sample.world ([], []) (inr Sample.results))
                       Sample.args) =
  inl (ParserError (not_found_message "1abc.pdb")) /\
  In (EvRun ["ATOM"]
            (prepare_extensions (set_isCIF false (force_flags Sample.args))))
     (trace (mainCommand Sample.good_world Sample.args)).
Proof.
  split.
  - exact (proj1 (proj2 (parse_check_fatal_iff_nothing_read
                           (Sample.world ([], []) (inr Sample.results))
                           Sample.args (force_flags Sample.args)
                           (set_isCIF false (force_flags Sample.args))
                           [] [] eq_refl eq_refl))
                 (conj eq_refl eq_refl)).
  - refine (proj2 (proj2 (parse_check_fatal_iff_nothing_read
                           Sample.good_world
                           Sample.args (force_flags Sample.args)
                           (set_isCIF false (force_flags Sample.args))
                           ["ATOM"] [] eq_refl eq_refl)) _ eq_refl).
    discriminate.
Defined.

(** C5.  Whenever the reader returns a per-record error, the run ends at
    line 106 with [NameError: name 'isCIF' is not defined]: nothing is
    logged as a warning, and the pipeline is never called. *)
Theorem record_errors_end_in_NameError
        (w : World) (a a1 a2 : Args) (l : list pdb_record) (e : list string) :
  outcome (configure w a) = inr a1 ->
  outcome (read_structure w a1) = inr (a2, (l, e)) ->
  e <> [] ->
  outcome (mainCommand w a) = inl (NameError "isCIF") /\
  existsb is_complaint (trace (mainCommand w a)) = false /\
  count_run (trace (mainCommand w a)) = 0.
Proof.
  intros Hc Hr He.
  destruct (mainCommand_configured w a a1 Hc) as [Ht Ho].
  pose proof (configure_result w a a1 Hc) as ->.
  rewrite read_structure_eq in Hr. simpl in Hr.
  injection Hr as <- Hread.
  rewrite Ht, Ho, process_eq. cbv zeta. rewrite Hread.
  destruct e as [|x e]; [easy|].
  destruct l; cbn [outcome trace fst snd]; (split; [reflexivity|split]).
  all: rewrite ?existsb_app, ?count_run_app, ?configure_has_no_complaint,
         ?(existsb_false_count _ (configure_has_no_run_event w a));
       reflexivity.
Qed.

(** One clean record and one malformed record. *)
Lemma record_errors_end_in_NameError_witness :
  outcome (mainCommand (Sample.world (["ATOM"], ["malformed record"])
                                     (inr Sample.results))
                       Sample.args) = inl (NameError "isCIF").
Proof.
  refine (proj1 (record_errors_end_in_NameError
                   (Sample.world (["ATOM"], ["malformed record"])
                                 (inr Sample.results))
                   Sample.args (force_flags Sample.args)
                   (set_isCIF false (force_flags Sample.args))
                   ["ATOM"] ["malformed record"] eq_refl eq_refl _)).
  discriminate.
Defined.

(* ================================================================== *)
(** ** The configuration checks (lines 51-63) *)

Section ProcessRaises.
Variable w : World.





End ProcessRaises.




(** C3, as the specification states it, does not hold: in clean mode a
    force field that resolves to no parameter file raises no error, and
    the structure is read and processed. *)
Lemma clean_mode_skips_forcefield_check :
  let a := Sample.config true false false 7%Q None "NOSUCHFF" "1abc.pdb" in
  getFFfile Sample.good_world (ff a) = "" /\
  outcome (mainCommand Sample.good_world a) = inr tt /\
  structure_processing_attempted (trace (mainCommand Sample.good_world a))
  = true.
Proof. repeat split. Qed.

(** C3, amended.  Outside clean mode, a force field that resolves to no
    parameter file ends the run with an error before the input structure
    is fetched, read or processed, and the error is the force-field parser
    error whenever the user files went through. *)
Theorem forcefield_checked_before_structure (w : World) (a : Args) :
  clean a = false ->
  getFFfile w (ff a) = "" ->
  (exists e, outcome (mainCommand w a) = inl e) /\
  structure_processing_attempted (trace (mainCommand w a)) = false /\
  (user_files_ok w a ->
   outcome (mainCommand w a) = inl (ParserError (ff_message (ff a)))).
Proof.
  intros Hc Hff.
  destruct (force_flags_frame a) as (Hc' & Hn & Hf & Hff' & _).
  assert (Hok : user_files_ok w (force_flags a) <-> user_files_ok w a).
  { unfold user_files_ok. now rewrite Hn, Hf. }
  rewrite <- Hc' in Hc. rewrite <- Hff' in Hff.
  destruct (check_config_ff w (force_flags a) Hc Hff) as [[e He] Hexact].
  split; [|split].
  - exists e. now apply configure_failed_no_structure, configure_check_failed.
  - now apply (configure_failed_no_structure w a e), configure_check_failed.
  - intros Hu. rewrite <- Hff'.
    apply configure_failed_no_structure, configure_check_failed.
    now apply Hexact, Hok.
Qed.

(** An unknown force field outside clean mode. *)
Lemma forcefield_checked_before_structure_witness :
  let a := Sample.config false false false 7%Q None "NOSUCHFF" "1abc.pdb" in
  outcome (mainCommand Sample.good_world a)
  = inl (ParserError (ff_message (Some "NOSUCHFF"))) /\
  structure_processing_attempted (trace (mainCommand Sample.good_world a))
  = false.
Proof.
  intros a.
  destruct (forcefield_checked_before_structure Sample.good_world a
              eq_refl eq_refl) as (_ & Hnone & Hexact).
  split; [|exact Hnone].
  apply Hexact. split; intros f Hf; discriminate Hf.
Defined.

(** C10, as the specification states it, does not hold: the user
    force-field file is opened on line 57, before line 58 looks at the
    user names, so a path that cannot be opened ends the run with the
    [OSError] of [open] and not with the parser error. *)
Lemma unopenable_userff_raises_OSError :
  let w := Scenario.without_file "my.ff" Sample.good_world in
  let a := Sample.config false false false 7%Q (Some "my.ff") "PARSE"
                         "1abc.pdb" in
  clean a = false /\ userff a = Some "my.ff" /\ usernames a = None /\
  outcome (mainCommand w a) = inl (OSError "my.ff") /\
  outcome (mainCommand w a) <> inl (ParserError usernames_message).
Proof. repeat split. discriminate. Qed.

(** C10, amended.  Outside clean mode, a user force-field file without a
    user names file never reaches the input structure: when the
    force-field file can be opened, the parser error "--usernames must be
    specified if using --userff" is raised; when it cannot, the [open]
    raises its [OSError] before that. *)
Theorem userff_requires_usernames (w : World) (a : Args) (f : string) :
  clean a = false -> userff a = Some f -> usernames a = None ->
  structure_processing_attempted (trace (mainCommand w a)) = false /\
  (can_open w f "rt" = true ->
   outcome (mainCommand w a) = inl (ParserError usernames_message)) /\
  (can_open w f "rt" = false ->
   outcome (mainCommand w a) = inl (OSError f)).
Proof.
  intros Hc Hf Hn.
  destruct (force_flags_frame a) as (Hc' & Hn' & Hf' & _).
  rewrite <- Hc' in Hc. rewrite <- Hf' in Hf. rewrite <- Hn' in Hn.
  pose proof (check_config_userff w (force_flags a) f Hc Hf Hn) as H.
  destruct (can_open w f "rt");
    apply configure_check_failed, configure_failed_no_structure in H;
    destruct H as [Ho Ht]; repeat split; auto; discriminate.
Qed.

(** A user force field [my.ff] without user names. *)
Lemma userff_requires_usernames_witness :
  let a := Sample.config false false false 7%Q (Some "my.ff") "PARSE"
                         "1abc.pdb" in
  outcome (mainCommand Sample.good_world a) = inl (ParserError usernames_message)
  /\ structure_processing_attempted (trace (mainCommand Sample.good_world a))
     = false.
Proof.
  intros a.
  destruct (userff_requires_usernames Sample.good_world a "my.ff"
              eq_refl eq_refl eq_refl) as (Hnone & Hexact & _).
  split; [now apply Hexact | exact Hnone].
Defined.

(* ================================================================== *)
(** ** The choice of the reader (lines 92-100) *)

Lemma mainCommand_never_reads_cif (w : World) (a : Args) :
  existsb is_cif_read (trace (mainCommand w a)) = false.
Proof.
  assert (Hcfg : existsb is_cif_read (trace (configure w a)) = false).
  { apply forallb_excludes with (P := is_setup_event);
      [now intros [] | apply configure_emits_setup]. }
  destruct (outcome (configure w a)) as [e|a1] eqn:Hc.
  - now rewrite (mainCommand_configure_failed w a e Hc).
  - destruct (mainCommand_configured w a a1 Hc) as [-> _].
    rewrite existsb_app, Hcfg, process_eq. cbv zeta.
    destruct (readPDB w (getPDBFile w (input_pdb a1))) as [[|r l] [|x e]];
      try reflexivity.
    rewrite trace_bind. cbn [outcome trace fst snd].
    destruct (finish_trace w (prepare_extensions (set_isCIF false a1))
                           (r :: l)) as (rest & -> & Hlate).
    simpl. apply forallb_excludes with (P := is_late_event);
      [now intros [] | exact Hlate].
Qed.

(** C4.  The suffix of a path keeps its dot, so the test of line 96 fails
    for every input path, [.cif] files included: the structure is always
    read by the PDB reader, [args.isCIF] stays [False], and the CIF reader
    is never called. *)
Theorem cif_extension_read_by_pdb_reader (w : World) (a : Args) :
  PyStr.lower (PyPath.suffix "1ABC.CIF") = ".cif" /\
  String.eqb (PyStr.lower (PyPath.suffix (input_pdb a))) "cif" = false /\
  read_structure w a =
    ([EvGetPDBFile (input_pdb a); EvReadPDB (getPDBFile w (input_pdb a))],
     inr (set_isCIF false a, readPDB w (getPDBFile w (input_pdb a)))) /\
  existsb is_cif_read (trace (mainCommand w a)) = false.
Proof.
  split; [reflexivity|]. split; [apply PyPathFacts.lower_suffix_not_cif|].
  split; [|apply mainCommand_never_reads_cif].
  unfold read_structure; cbv zeta.
  now rewrite PyPathFacts.lower_suffix_not_cif.
Qed.

(** The run on [1abc.cif]: the PDB reader is called, and the pipeline
    receives a namespace whose [isCIF] is [False]. *)
Example cif_input_run :
  let a := Sample.config false false false 7%Q None "PARSE" "1abc.cif" in
  firstn 2 (skipn 3 (trace (mainCommand Sample.good_world a))) =
  [EvGetPDBFile "1abc.cif"; EvReadPDB []] /\
  nth_error (trace (mainCommand Sample.good_world a)) 5 =
  Some (EvRun ["ATOM"]
              (prepare_extensions (set_isCIF false (force_flags a)))) /\
  isCIF (prepare_extensions (set_isCIF false (force_flags a))) = false.
Proof. repeat split. Qed.

(* ================================================================== *)
(** ** The pipeline call (lines 122-129) *)

(** C7.  When the pipeline, called on [l] with the namespace [a'], raises
    a [PDB2PQRError], the run ends with one [PDB2PQRError] built around
    it; the pipeline was called exactly once; and the output file was
    neither opened nor written. *)
Theorem pipeline_error_surfaces_once
        (w : World) (a a' : Args) (l : list pdb_record) (e : pdb2pqr_error) :
  In (EvRun l a') (trace (mainCommand w a)) ->
  runPDB2PQR w l a' = inl (FailPDB2PQRError e) ->
  outcome (mainCommand w a) = inl (PDB2PQRError (ErrWrap e)) /\
  count_run (trace (mainCommand w a)) = 1 /\
  existsb is_output_event (trace (mainCommand w a)) = false /\
  written (output_pqr a) (trace (mainCommand w a)) = [].
Proof.
  intros Hin Hrun.
  destruct (mainCommand_run_event w a l a' Hin) as (_ & _ & -> & ->).
  rewrite (finish_pipeline_error w a' l e Hrun). cbn [outcome trace fst snd].
  split; [reflexivity|]. split; [|split].
  - rewrite count_run_app,
      (existsb_false_count _ (configure_has_no_run_event w a)).
    reflexivity.
  - now rewrite existsb_app, configure_has_no_output_event.
  - pose proof (configure_emits_setup w a) as Hs. unfold emits_only in Hs.
    induction (trace (configure w a)) as [|ev t IH]; [reflexivity|].
    simpl in Hs. apply andb_true_iff in Hs. destruct Hs as [Hev Ht].
    destruct ev; try discriminate; simpl; auto.
Qed.

(** A pipeline that raises on the records of the sample input. *)
Lemma pipeline_error_surfaces_once_witness :
  let w := Sample.world (["ATOM"], [])
                        (inl (FailPDB2PQRError (ErrPayload "no heavy atoms"))) in
  outcome (mainCommand w Sample.args)
  = inl (PDB2PQRError (ErrWrap (ErrPayload "no heavy atoms"))) /\
  count_run (trace (mainCommand w Sample.args)) = 1 /\
  written "out.pqr" (trace (mainCommand w Sample.args)) = [].
Proof.
  intros w.
  destruct (pipeline_error_surfaces_once w Sample.args
              (prepare_extensions (set_isCIF false (force_flags Sample.args)))
              ["ATOM"] (ErrPayload "no heavy atoms"))
    as (Ho & Hn & _ & Hw).
  - simpl. do 5 right. left. reflexivity.
  - reflexivity.
  - auto.
Defined.

(* ================================================================== *)
(** ** The forced flags (lines 47-49) *)

Lemma later_assignments_keep_flags (a : Args) :
  debump (prepare_extensions (set_isCIF false a)) = debump a /\
  opt (prepare_extensions (set_isCIF false a)) = opt a.
Proof.
  unfold prepare_extensions. cbv zeta.
  now destruct (active_extensions _) as [[?|]|].
Qed.

(** C8.  With assign-only or clean mode requested, [debump] and [opt] are
    [False] after lines 47-49 whatever the caller supplied, they are
    [False] in the namespace that leaves configuration, and they are
    [False] in every namespace the pipeline is called with. *)
Theorem assign_only_or_clean_disables_debump_and_opt
        (w : World) (a : Args) :
  assign_only a = true \/ clean a = true ->
  (debump (force_flags a) = false /\ opt (force_flags a) = false) /\
  (forall a1, outcome (configure w a) = inr a1 ->
              debump a1 = false /\ opt a1 = false) /\
  (forall l a', In (EvRun l a') (trace (mainCommand w a)) ->
                debump a' = false /\ opt a' = false).
Proof.
  intros H.
  assert (Hor : assign_only a || clean a = true)
    by (apply orb_true_iff; exact H).
  pose proof (force_flags_forced a Hor) as Hforced.
  split; [exact Hforced|]. split.
  - intros a1 Hc. now rewrite (configure_result w a a1 Hc).
  - intros l a' Hin.
    destruct (mainCommand_run_event w a l a' Hin) as (-> & _).
    destruct (later_assignments_keep_flags (force_flags a)) as [-> ->].
    exact Hforced.
Qed.

(** Clean mode with [debump] and [opt] supplied as [True]: the pipeline
    is called, with both flags off. *)
Lemma assign_only_or_clean_disables_debump_and_opt_witness :
  let a := Sample.config true false false 7%Q None "PARSE" "1abc.pdb" in
  let a' := prepare_extensions (set_isCIF false (force_flags a)) in
  (debump a = true /\ opt a = true) /\
  In (EvRun ["ATOM"] a') (trace (mainCommand Sample.good_world a)) /\
  debump a' = false /\ opt a' = false.
Proof.
  intros a a'.
  assert (Hin : In (EvRun ["ATOM"] a')
                   (trace (mainCommand Sample.good_world a))).
  { simpl. do 5 right. left. reflexivity. }
  split; [split; reflexivity|]. split; [exact Hin|].
  exact (proj2 (proj2 (assign_only_or_clean_disables_debump_and_opt
                         Sample.good_world a (or_intror eq_refl)))
               ["ATOM"] a' Hin).
Defined.

(* ================================================================== *)
(** ** The output loop (lines 136-150) *)

(** Without the whitespace option and for a non-CIF input, every line of
    the pipeline is written as it is. *)
Lemma write_line_plain (a : Args) (line : string) :
  whitespace a = false -> isCIF a = false -> write_line a line = Some line.
Proof.
  unfold write_line. intros -> ->. now rewrite andb_false_r.
Qed.

(** With the whitespace option, a line that starts with [TER] is written
    in no case: the branch of line 144 passes, and the loop has no
    [else]. *)
Lemma write_line_whitespace_TER (a : Args) (rest : string) :
  whitespace a = true -> write_line a ("TER" ++ rest) = None.
Proof.
  unfold write_line. intros ->.
  destruct rest as [|c1 [|c2 [|c3 rest]]]; simpl;
    repeat match goal with
           | |- context [if ?b then _ else _] => destruct b
           end; reflexivity.
Qed.

(** C6.  The run of the sample pipeline result (an atom line, [TER],
    [END]) on a [.pdb] input: with the whitespace option the output file
    receives the header and the atom line only, the [TER] line is not
    written; without the option it receives the header and all three
    lines. *)
Theorem whitespace_option_drops_TER_lines :
  let a := Sample.config false false true 7%Q None "PARSE" "1abc.pdb" in
  let m := mainCommand Sample.good_world a in
  lines Sample.results = [Sample.atom_line; "TER"; "END"] /\
  outcome m = inr tt /\
  written "out.pqr" (trace m) =
    [header Sample.results; add_whitespace Sample.atom_line] /\
  existsb (String.eqb "TER") (written "out.pqr" (trace m)) = false /\
  written "out.pqr" (trace (mainCommand Sample.good_world Sample.args)) =
    header Sample.results :: lines Sample.results.
Proof. repeat split. Qed.

(** The inserted spaces of a line of 46 characters or more sit at the
    offsets 6, 16, 38 and 46 of the line. *)
Lemma clip_long (k : nat) (line : string) :
  k <= String.length line -> clip k line = k.
Proof. unfold clip. lia. Qed.

(** C9.  For a line that starts with [ATOM] or [HETATM], the whitespace
    option writes the line with one space inserted at each of the offsets
    6, 16, 38 and 46 of the original line (an offset past the end of a
    short line is the end of the line, as for any slice): the five slices
    tile the line, and deleting the four inserted spaces gives the line
    back. *)
Theorem whitespace_inserts_four_spaces (a : Args) (line : string) :
  whitespace a = true ->
  PyStr.slice 0 4 line = "ATOM" \/ PyStr.slice 0 6 line = "HETATM" ->
  write_line a line = Some (add_whitespace line) /\
  (PyStr.slice 0 6 line ++ PyStr.slice 6 16 line ++ PyStr.slice 16 38 line ++
   PyStr.slice 38 46 line ++ PyStr.drop 46 line)%string = line /\
  add_whitespace line =
    PyStr.insert_at 6 " " (PyStr.insert_at 16 " "
      (PyStr.insert_at 38 " " (PyStr.insert_at 46 " " line))) /\
  String.length (add_whitespace line) = String.length line + 4 /\
  PyStr.delete_at (clip 46 line) (PyStr.delete_at (clip 38 line)
    (PyStr.delete_at (clip 16 line) (PyStr.delete_at (clip 6 line)
      (add_whitespace line)))) = line /\
  (46 <= String.length line ->
   clip 6 line = 6 /\ clip 16 line = 16 /\ clip 38 line = 38 /\
   clip 46 line = 46).
Proof.
  intros Hw Hprefix.
  assert (Hlong : 46 <= String.length line ->
                  clip 6 line = 6 /\ clip 16 line = 16 /\
                  clip 38 line = 38 /\ clip 46 line = 46).
  { intros Hlen. repeat split; apply clip_long; lia. }
  split; [|split; [apply PyStrFacts.slices_tile|]].
  - unfold write_line. rewrite Hw.
    destruct Hprefix as [-> | ->]; [reflexivity|].
    now destruct (String.eqb (PyStr.slice 0 4 line) "ATOM").
  - cut (add_whitespace line =
           PyStr.insert_at 6 " " (PyStr.insert_at 16 " "
             (PyStr.insert_at 38 " " (PyStr.insert_at 46 " " line))) /\
         String.length (add_whitespace line) = String.length line + 4 /\
         PyStr.delete_at (clip 46 line) (PyStr.delete_at (clip 38 line)
           (PyStr.delete_at (clip 16 line) (PyStr.delete_at (clip 6 line)
             (add_whitespace line)))) = line);
      [tauto|].
    clear Hw Hprefix Hlong. unfold add_whitespace, clip.
    do 46 (destruct line as [|? line]; [repeat split|]).
    cbn -[Nat.add]. repeat split. lia.
Qed.

(** The sample atom line, and a short line on which every offset is the
    end of the line. *)
Lemma whitespace_inserts_four_spaces_witness :
  let a := Sample.config false false true 7%Q None "PARSE" "1abc.pdb" in
  write_line a Sample.atom_line =
  Some "ATOM       1  N    MET A   1      27.340   24.430    2.614  1.00  9.67"
  /\
  PyStr.delete_at 46 (PyStr.delete_at 38 (PyStr.delete_at 16
    (PyStr.delete_at 6 (add_whitespace Sample.atom_line)))) = Sample.atom_line
  /\
  write_line a "HETATM" = Some "HETATM    ".
Proof.
  intros a.
  destruct (whitespace_inserts_four_spaces a Sample.atom_line eq_refl
              (or_introl eq_refl)) as (Hwritten & _ & _ & _ & Hback & _).
  destruct (whitespace_inserts_four_spaces a "HETATM" eq_refl
              (or_intror eq_refl)) as (Hshort & _).
  split; [exact Hwritten|]. split; [exact Hback | exact Hshort].
Defined.

(* ================================================================== *)
(** ** The remaining configuration steps (lines 65-89) *)

Section ConfigureSteps.
Variable w : World.
Implicit Types (a : Args).

(** The outcome of [configure] is that of its first failing step. *)
Lemma configure_outcome a :
  outcome (configure w a) =
  match outcome (check_config w (force_flags a)) with
  | inl e => inl e
  | inr _ =>
      match outcome (ph_calc_setup (force_flags a)) with
      | inl e => inl e
      | inr _ =>
          match outcome (open_ligand w (force_flags a)) with
          | inl e => inl e
          | inr _ =>
              match outcome (check_neutral (force_flags a)) with
              | inl e => inl e
              | inr _ => inr (force_flags a)
              end
          end
      end
  end.
Proof.
  unfold configure. rewrite outcome_bind. simpl outcome. cbv zeta.
  rewrite outcome_bind.
  destruct (outcome (check_config w (force_flags a))); [reflexivity|].
  rewrite outcome_bind.
  destruct (outcome (ph_calc_setup (force_flags a))); [reflexivity|].
  rewrite outcome_bind.
  destruct (outcome (open_ligand w (force_flags a))); [reflexivity|].
  rewrite outcome_bind.
  destruct (outcome (check_neutral (force_flags a))); reflexivity.
Qed.

(** The later steps read fields that [force_flags] leaves alone. *)
Lemma force_flags_frame_options a :
  pka_method (force_flags a) = pka_method a /\
  ligand (force_flags a) = ligand a /\
  neutraln (force_flags a) = neutraln a /\
  neutralc (force_flags a) = neutralc a /\
  ff_is_not_parse (force_flags a) = ff_is_not_parse a /\
  output_pqr (force_flags a) = output_pqr a.
Proof.
  unfold force_flags, ff_is_not_parse.
  destruct (assign_only a || clean a); auto 10.
Qed.

Lemma ph_calc_setup_pdb2pka a s :
  pka_method a = Some "pdb2pka" -> ff a = Some s ->
  PyStr.lower s <> "parse" ->
  outcome (ph_calc_setup a) = inl (ParserError pdb2pka_message).
Proof.
  intros Hm Hf Hs. unfold ph_calc_setup, ff_lower. rewrite Hm, Hf. simpl.
  apply String.eqb_neq in Hs. now rewrite Hs.
Qed.

Lemma open_ligand_missing a f :
  ligand a = Some f -> can_open w f "rt" = false ->
  outcome (open_ligand w a) = inl (ParserError (ligand_message f)).
Proof. intros Hl Ho. unfold open_ligand. rewrite Hl. simpl. now rewrite Ho. Qed.

Lemma check_neutral_refuses a :
  neutraln a = true \/ neutralc a = true -> ff_is_not_parse a = true ->
  outcome (check_neutral a) =
  inl (ParserError (if neutraln a then neutraln_message
                    else neutralc_message)).
Proof.
  intros H Hff. unfold check_neutral. rewrite Hff.
  destruct (neutraln a), (neutralc a); try reflexivity.
  now destruct H.
Qed.

Lemma check_neutral_passes a :
  ff_is_not_parse a = false -> outcome (check_neutral a) = inr tt.
Proof.
  intros Hff. unfold check_neutral. rewrite Hff, !andb_false_r. reflexivity.
Qed.

End ConfigureSteps.

(** X1.  With the pKa method [pdb2pka] and a force field whose
    lower-cased name is not [parse], the run always ends in an error
    before any step on the input structure, in clean mode too; when the
    checks of lines 51-63 went through, the error is the parser error
    "PDB2PKA requires the PARSE force field.". *)
Theorem pdb2pka_requires_parse (w : World) (a : Args) (s : string) :
  pka_method a = Some "pdb2pka" -> ff a = Some s ->
  PyStr.lower s <> "parse" ->
  (exists e, outcome (mainCommand w a) = inl e) /\
  structure_processing_attempted (trace (mainCommand w a)) = false /\
  (outcome (check_config w (force_flags a)) = inr tt ->
   outcome (mainCommand w a) = inl (ParserError pdb2pka_message)).
Proof.
  intros Hm Hf Hs.
  destruct (force_flags_frame a) as (_ & _ & _ & Hff & _).
  destruct (force_flags_frame_options a) as (Hpka & _).
  rewrite <- Hpka in Hm. rewrite <- Hff in Hf.
  pose proof (ph_calc_setup_pdb2pka (force_flags a) s Hm Hf Hs) as Hp.
  pose proof (configure_outcome w a) as Hcfg. rewrite Hp in Hcfg.
  destruct (outcome (check_config w (force_flags a))) as [e|[]] eqn:Hc.
  - destruct (configure_failed_no_structure w a e Hcfg) as [Ho Ht].
    repeat split; eauto. discriminate.
  - destruct (configure_failed_no_structure w a _ Hcfg) as [Ho Ht].
    repeat split; eauto.
Qed.

(** The AMBER force field with [pdb2pka], in clean mode. *)
Lemma pdb2pka_requires_parse_witness :
  let a := Scenario.options (Scenario.amber true) (Some "pdb2pka") None None
                            false false false in
  outcome (mainCommand Sample.good_world a) = inl (ParserError pdb2pka_message)
  /\ structure_processing_attempted (trace (mainCommand Sample.good_world a))
     = false.
Proof.
  intros a.
  destruct (pdb2pka_requires_parse Sample.good_world a "AMBER"
              eq_refl eq_refl) as (_ & Hnone & Hexact).
  - discriminate.
  - split; [now apply Hexact | exact Hnone].
Defined.

(** X2.  With [--neutraln] or [--neutralc] and a force field that is
    absent or whose lower-cased name is not [parse], the run always ends
    in an error before any step on the input structure; when the earlier
    configuration steps went through, the error is the parser error of
    the first of the two options that is set. *)
Theorem neutral_termini_require_parse (w : World) (a : Args) :
  neutraln a = true \/ neutralc a = true ->
  ff_is_not_parse a = true ->
  (exists e, outcome (mainCommand w a) = inl e) /\
  structure_processing_attempted (trace (mainCommand w a)) = false /\
  (reaches_neutral_check w a ->
   outcome (mainCommand w a) =
   inl (ParserError (if neutraln a then neutraln_message
                     else neutralc_message))).
Proof.
  intros Hn Hff.
  destruct (force_flags_frame_options a) as (_ & _ & Hnn & Hnc & Hnp & _).
  rewrite <- Hnn, <- Hnc in Hn. rewrite <- Hnp in Hff.
  pose proof (check_neutral_refuses (force_flags a) Hn Hff) as Hneutral.
  rewrite Hnn in Hneutral.
  pose proof (configure_outcome w a) as Hcfg. rewrite Hneutral in Hcfg.
  assert (Hfail : exists e, outcome (configure w a) = inl e).
  { rewrite Hcfg.
    destruct (outcome (check_config w _)); eauto.
    destruct (outcome (ph_calc_setup _)); eauto.
    destruct (outcome (open_ligand w _)); eauto. }
  destruct Hfail as [e He].
  destruct (configure_failed_no_structure w a e He) as [Ho Ht].
  split; [eauto|]. split; [exact Ht|].
  intros (Hc & [o Hp] & Hl). rewrite Ho. f_equal.
  rewrite Hc, Hp, Hl in Hcfg. congruence.
Qed.

(** [--neutralc] with the AMBER force field, in clean mode. *)
Lemma neutral_termini_require_parse_witness :
  let a := Scenario.options (Scenario.amber true) None None None
                            false true false in
  outcome (mainCommand Sample.good_world a)
  = inl (ParserError neutralc_message)
  /\ structure_processing_attempted (trace (mainCommand Sample.good_world a))
     = false.
Proof.
  intros a.
  destruct (neutral_termini_require_parse Sample.good_world a
              (or_intror eq_refl) eq_refl) as (_ & Hnone & Hexact).
  split; [|exact Hnone].
  apply Hexact. split; [reflexivity|]. split; [|reflexivity].
  now exists None.
Defined.

(** X3.  A ligand file that cannot be opened always ends the run in an
    error before any step on the input structure; when the checks of
    lines 51-63 and the pKa options went through, the [IOError] of [open]
    is caught and the error is the parser error "Unable to find ligand
    file". *)
Theorem missing_ligand_is_parser_error (w : World) (a : Args) (f : string) :
  ligand a = Some f -> can_open w f "rt" = false ->
  (exists e, outcome (mainCommand w a) = inl e) /\
  structure_processing_attempted (trace (mainCommand w a)) = false /\
  (outcome (check_config w (force_flags a)) = inr tt ->
   (exists o, outcome (ph_calc_setup (force_flags a)) = inr o) ->
   outcome (mainCommand w a) = inl (ParserError (ligand_message f))).
Proof.
  intros Hl Ho.
  destruct (force_flags_frame_options a) as (_ & Hlig & _).
  rewrite <- Hlig in Hl.
  pose proof (open_ligand_missing w (force_flags a) f Hl Ho) as Hopen.
  pose proof (configure_outcome w a) as Hcfg. rewrite Hopen in Hcfg.
  assert (Hfail : exists e, outcome (configure w a) = inl e).
  { rewrite Hcfg.
    destruct (outcome (check_config w _)); eauto.
    destruct (outcome (ph_calc_setup _)); eauto. }
  destruct Hfail as [e He].
  destruct (configure_failed_no_structure w a e He) as [Hout Ht].
  split; [eauto|]. split; [exact Ht|].
  intros Hc [o Hp]. rewrite Hout. f_equal.
  rewrite Hc, Hp in Hcfg. congruence.
Qed.

(** A ligand file [lig.mol2] that is not there. *)
Lemma missing_ligand_is_parser_error_witness :
  let w := Scenario.without_file "lig.mol2" Sample.good_world in
  let a := Scenario.options Sample.args None (Some "lig.mol2") None
                            false false false in
  outcome (mainCommand w a) = inl (ParserError (ligand_message "lig.mol2")) /\
  structure_processing_attempted (trace (mainCommand w a)) = false.
Proof.
  intros w a.
  destruct (missing_ligand_is_parser_error w a "lig.mol2" eq_refl eq_refl)
    as (_ & Hnone & Hexact).
  split; [|exact Hnone].
  apply Hexact; [reflexivity | now exists None].
Defined.

(** X4.  Outside clean mode, a user names file that cannot be opened ends
    the run with the uncaught [OSError] of [open], before any step on the
    input structure; so does a user force-field file that cannot be
    opened, when the user names file (if any) could. *)
Theorem unreadable_user_file_raises_OSError (w : World) (a : Args) :
  clean a = false ->
  (forall f, usernames a = Some f -> can_open w f "rt" = false ->
     outcome (mainCommand w a) = inl (OSError f) /\
     structure_processing_attempted (trace (mainCommand w a)) = false) /\
  (forall g, userff a = Some g -> can_open w g "rt" = false ->
     (forall f, usernames a = Some f -> can_open w f "rt" = true) ->
     outcome (mainCommand w a) = inl (OSError g) /\
     structure_processing_attempted (trace (mainCommand w a)) = false).
Proof.
  intros Hc.
  destruct (force_flags_frame a) as (Hc' & Hn & Hf & _).
  assert (Hstep : forall e,
             outcome (open_user_files w (force_flags a)) = inl e ->
             outcome (mainCommand w a) = inl e /\
             structure_processing_attempted (trace (mainCommand w a)) = false).
  { intros e He. apply configure_failed_no_structure, configure_check_failed.
    unfold check_config. rewrite Hc', Hc. simpl.
    now rewrite outcome_bind, He. }
  split.
  - intros f Hu Ho. apply Hstep.
    unfold open_user_files, open_file. rewrite Hn, Hu.
    rewrite !outcome_bind. simpl. now rewrite Ho.
  - intros g Hu Ho Hnames. apply Hstep.
    unfold open_user_files, open_file. rewrite Hn, Hf, Hu.
    destruct (usernames a) as [f|].
    + rewrite !outcome_bind. simpl. rewrite (Hnames f eq_refl). simpl.
      now rewrite Ho.
    + rewrite !outcome_bind. simpl. now rewrite Ho.
Qed.

(** A user names file [my.names] that is not there. *)
Lemma unreadable_user_file_raises_OSError_witness :
  let w := Scenario.without_file "my.names" Sample.good_world in
  let a := Scenario.options Sample.args None None (Some "my.names")
                            false false false in
  outcome (mainCommand w a) = inl (OSError "my.names") /\
  structure_processing_attempted (trace (mainCommand w a)) = false.
Proof.
  intros w a.
  exact (proj1 (unreadable_user_file_raises_OSError w a eq_refl)
               "my.names" eq_refl eq_refl).
Defined.

(** X5.  In clean mode with no pKa method, no ligand and no neutral
    terminus option, configuration cannot fail and opens no file,
    whatever the pH, the force field and the user files are: it only sets
    up logging, and the input structure is fetched. *)
Theorem clean_mode_configuration_cannot_fail (w : World) (a : Args) :
  clean a = true -> pka_method a = None -> ligand a = None ->
  neutraln a = false -> neutralc a = false ->
  configure w a = (trace (setup_logging a), inr (force_flags a)) /\
  In (EvGetPDBFile (input_pdb a)) (trace (mainCommand w a)).
Proof.
  intros Hc Hm Hl Hn1 Hn2.
  destruct (force_flags_frame a) as (Hc' & _ & _ & _ & _ & Hin).
  destruct (force_flags_frame_options a) as (Hm' & Hl' & Hn1' & Hn2' & _).
  assert (Hcfg : configure w a = (trace (setup_logging a), inr (force_flags a))).
  { unfold configure. cbv zeta.
    rewrite (check_config_clean w (force_flags a)) by congruence.
    unfold ph_calc_setup, open_ligand, check_neutral.
    rewrite Hm', Hm, Hl', Hl, Hn1', Hn1, Hn2', Hn2. reflexivity. }
  split; [exact Hcfg|].
  destruct (mainCommand_configured w a (force_flags a)) as [-> _].
  { now rewrite Hcfg. }
  apply in_or_app. right. rewrite process_eq. cbv zeta. rewrite Hin.
  destruct (readPDB w (getPDBFile w (input_pdb a))) as [[|r l] [|x e]];
    try (now left).
  rewrite trace_bind. now left.
Qed.

(** Clean mode with a pH of 15, an unknown force field and a user force
    field without user names. *)
Lemma clean_mode_configuration_cannot_fail_witness :
  let a := Sample.config true false false 15%Q (Some "my.ff") "NOSUCHFF"
                         "1abc.pdb" in
  outcome (configure Sample.good_world a) = inr (force_flags a) /\
  In (EvGetPDBFile "1abc.pdb") (trace (mainCommand Sample.good_world a)).
Proof.
  intros a.
  destruct (clean_mode_configuration_cannot_fail Sample.good_world a
              eq_refl eq_refl eq_refl eq_refl eq_refl) as [Hcfg Hin].
  split; [now rewrite Hcfg | exact Hin].
Defined.

(* ================================================================== *)
(** ** The pipeline call and the output file (lines 112-165) *)

Lemma lines_written_plain (a : Args) (ls : list string) :
  whitespace a = false -> isCIF a = false -> lines_written a ls = ls.
Proof.
  intros Hw Hc. unfold lines_written.
  induction ls as [|l ls IH]; simpl; [reflexivity|].
  now rewrite (write_line_plain a l Hw Hc), IH.
Qed.

Lemma lines_written_whitespace (a : Args) (ls : list string) :
  whitespace a = true ->
  lines_written a ls = map add_whitespace (filter is_atom_line ls).
Proof.
  intros Hw. unfold lines_written, is_atom_line.
  induction ls as [|l ls IH]; simpl; [reflexivity|].
  rewrite IH. unfold write_line. rewrite Hw.
  destruct (String.eqb (PyStr.slice 0 4 l) "ATOM"); simpl; [reflexivity|].
  destruct (String.eqb (PyStr.slice 0 6 l) "HETATM"); simpl; [reflexivity|].
  now destruct (String.eqb (PyStr.slice 0 3 l) "TER" && isCIF a).
Qed.

Lemma write_lines_eq (a : Args) (ls : list string) :
  write_lines a ls =
  (map (EvWrite (output_pqr a)) (lines_written a ls), inr tt).
Proof.
  unfold lines_written.
  induction ls as [|l ls IH]; simpl; [reflexivity|].
  rewrite IH. now destruct (write_line a l).
Qed.

Lemma written_app (p : string) (t t' : list event) :
  written p (t ++ t') = written p t ++ written p t'.
Proof.
  induction t as [|e t IH]; simpl; [reflexivity|].
  destruct e; try exact IH. destruct (String.eqb path p); simpl; now rewrite IH.
Qed.

Lemma written_map (p : string) (xs : list string) :
  written p (map (EvWrite p) xs) = xs.
Proof.
  induction xs as [|x xs IH]; simpl; [reflexivity|].
  now rewrite String.eqb_refl, IH.
Qed.

Lemma written_setup (p : string) (t : list event) :
  forallb is_setup_event t = true -> written p t = [].
Proof.
  induction t as [|e t IH]; simpl; [reflexivity|].
  rewrite andb_true_iff. intros [He Ht]. destruct e; try discriminate; auto.
Qed.

Lemma pipeline_args_frame (a : Args) :
  isCIF (pipeline_args a) = false /\
  output_pqr (pipeline_args a) = output_pqr a /\
  whitespace (pipeline_args a) = whitespace a /\
  apbs_input (pipeline_args a) = apbs_input a.
Proof.
  unfold pipeline_args, prepare_extensions, force_flags. cbv zeta.
  destruct (assign_only a || clean a);
    now destruct (active_extensions _) as [[?|]|].
Qed.

Section FinishForms.
Variable w : World.
Implicit Types (a : Args) (l : list pdb_record).

Lemma apbs_stage_eq a :
  apbs_stage w a =
  if apbs_input a then
    ([EvApbsInput (output_pqr a)],
     match apbs_inputgen w (output_pqr a) with
     | Some what => inl (OtherError what)
     | None => inr tt
     end)
  else ([], inr tt).
Proof.
  unfold apbs_stage. destruct (apbs_input a); [|reflexivity]. simpl.
  now destruct (apbs_inputgen w (output_pqr a)).
Qed.

Lemma write_output_eq a r :
  isCIF a = false ->
  write_output w a r =
  if can_open w (output_pqr a) "w" then (output_events a r, inr tt)
  else ([EvOpen (output_pqr a) "w"], inl (OSError (output_pqr a))).
Proof.
  intros Hc. unfold write_output, open_file, output_events.
  rewrite Hc, write_lines_eq. simpl.
  destruct (can_open w (output_pqr a) "w"); reflexivity.
Qed.

(** The three ways through [finish] once the pipeline has returned. *)
Lemma finish_returned a l r :
  isCIF a = false -> runPDB2PQR w l a = inr r ->
  finish w a l =
  if can_open w (output_pqr a) "w" then
    (EvRun l a :: output_events a r ++ trace (apbs_stage w a),
     outcome (apbs_stage w a))
  else ([EvRun l a; EvOpen (output_pqr a) "w"],
        inl (OSError (output_pqr a))).
Proof.
  intros Hc Hr. unfold finish, run_stage. simpl. rewrite Hr. simpl.
  rewrite (write_output_eq a r Hc).
  destruct (can_open w (output_pqr a) "w"); simpl; [|reflexivity].
  now destruct (apbs_stage w a).
Qed.

Lemma finish_other_failure a l what :
  runPDB2PQR w l a = inl (FailOther what) ->
  finish w a l = ([EvRun l a], inl (OtherError what)).
Proof. intros Hr. unfold finish, run_stage. simpl. now rewrite Hr. Qed.

End FinishForms.

(** X6.  When the pipeline returned and the output file could be opened,
    the output file receives the header and then what the loop writes for
    each line, in order, and no CIF trailer.  Without the whitespace
    option that is every line of the pipeline, unchanged; with it, the
    lines that start with [ATOM] or [HETATM], each with its four spaces,
    and no other line. *)
Theorem output_file_contents
        (w : World) (a a' : Args) (l : list pdb_record) (r : Results) :
  In (EvRun l a') (trace (mainCommand w a)) ->
  runPDB2PQR w l a' = inr r ->
  can_open w (output_pqr a) "w" = true ->
  written (output_pqr a) (trace (mainCommand w a)) =
    header r :: lines_written a' (lines r) /\
  (whitespace a = false ->
   written (output_pqr a) (trace (mainCommand w a)) = header r :: lines r) /\
  (whitespace a = true ->
   written (output_pqr a) (trace (mainCommand w a)) =
   header r :: map add_whitespace (filter is_atom_line (lines r))).
Proof.
  intros Hin Hrun Hopen.
  destruct (mainCommand_run_event w a l a' Hin) as (Ha' & _ & Ht & _).
  change (a' = pipeline_args a) in Ha'. subst a'.
  destruct (pipeline_args_frame a) as (Hcif & Hout & Hws & _).
  assert (Hwritten : written (output_pqr a) (trace (mainCommand w a)) =
                     header r :: lines_written (pipeline_args a) (lines r)).
  { rewrite Ht, (finish_returned w _ l r Hcif Hrun), Hout, Hopen.
    cbn [trace fst]. rewrite !written_app.
    rewrite (written_setup _ _ (configure_emits_setup w a)).
    rewrite apbs_stage_eq. unfold output_events. rewrite Hout.
    simpl. rewrite String.eqb_refl. f_equal.
    rewrite !written_app, written_map.
    destruct (apbs_input (pipeline_args a)); simpl; now rewrite !app_nil_r. }
  split; [exact Hwritten|]. split; intros Hw; rewrite Hwritten; f_equal.
  - apply lines_written_plain; congruence.
  - apply lines_written_whitespace; congruence.
Qed.

(** The sample run without the whitespace option: the header and the
    pipeline's three lines. *)
Lemma output_file_contents_witness :
  written "out.pqr" (trace (mainCommand Sample.good_world Sample.args)) =
  [header Sample.results; Sample.atom_line; "TER"; "END"].
Proof.
  refine (proj1 (proj2 (output_file_contents Sample.good_world Sample.args
                          (pipeline_args Sample.args) ["ATOM"] Sample.results
                          _ eq_refl eq_refl)) eq_refl).
  simpl. do 5 right. left. reflexivity.
Defined.

(** X7.  The steps of a run whose pipeline returned and whose output file
    could be opened, after configuration: the structure is fetched and
    read, the pipeline is called, the output file is opened, written and
    closed, and only then, and only with [--apbs-input], the APBS input
    is generated; the user files and the ligand file are never closed. *)
Theorem completed_run_steps
        (w : World) (a a' : Args) (l : list pdb_record) (r : Results) :
  In (EvRun l a') (trace (mainCommand w a)) ->
  runPDB2PQR w l a' = inr r ->
  can_open w (output_pqr a) "w" = true ->
  trace (mainCommand w a) =
    trace (configure w a) ++
    [EvGetPDBFile (input_pdb a); EvReadPDB (getPDBFile w (input_pdb a));
     EvRun l a'] ++
    output_events a' r ++
    (if apbs_input a then [EvApbsInput (output_pqr a)] else []) /\
  forall p, In (EvClose p) (trace (mainCommand w a)) -> p = output_pqr a.
Proof.
  intros Hin Hrun Hopen.
  destruct (mainCommand_run_event w a l a' Hin) as (Ha' & _ & Ht & _).
  change (a' = pipeline_args a) in Ha'. subst a'.
  destruct (pipeline_args_frame a) as (Hcif & Hout & _ & Hapbs).
  assert (Hsteps : trace (mainCommand w a) =
            trace (configure w a) ++
            [EvGetPDBFile (input_pdb a);
             EvReadPDB (getPDBFile w (input_pdb a));
             EvRun l (pipeline_args a)] ++
            output_events (pipeline_args a) r ++
            (if apbs_input a then [EvApbsInput (output_pqr a)] else [])).
  { rewrite Ht, (finish_returned w _ l r Hcif Hrun), Hout, Hopen.
    cbn [trace fst]. rewrite apbs_stage_eq, Hapbs, Hout.
    now destruct (apbs_input a). }
  split; [exact Hsteps|].
  intros p Hp. rewrite Hsteps in Hp.
  apply in_app_or in Hp. destruct Hp as [Hp|Hp].
  { apply (emits_only_In _ _ _ (configure_emits_setup w a)) in Hp.
    discriminate. }
  simpl in Hp. destruct Hp as [Hp|[Hp|[Hp|Hp]]]; try discriminate.
  unfold output_events in Hp. rewrite Hout in Hp. simpl in Hp.
  destruct Hp as [Hp|[Hp|Hp]]; try discriminate.
  rewrite <- app_assoc in Hp.
  apply in_app_or in Hp. destruct Hp as [Hp|Hp].
  { apply in_map_iff in Hp. destruct Hp as (x & Hx & _). discriminate. }
  simpl in Hp. destruct Hp as [Hp|Hp]; [congruence|].
  destruct (apbs_input a); simpl in Hp; [|contradiction].
  destruct Hp as [Hp|[]]. discriminate.
Qed.

(** The sample run with [--apbs-input]. *)
Lemma completed_run_steps_witness :
  let a := Scenario.options Sample.args None None None false false true in
  skipn 3 (trace (mainCommand Sample.good_world a)) =
  [EvGetPDBFile "1abc.pdb"; EvReadPDB []; EvRun ["ATOM"] (pipeline_args a);
   EvOpen "out.pqr" "w";
   EvWrite "out.pqr" (header Sample.results);
   EvWrite "out.pqr" Sample.atom_line;
   EvWrite "out.pqr" "TER"; EvWrite "out.pqr" "END";
   EvClose "out.pqr"; EvApbsInput "out.pqr"].
Proof.
  intros a.
  destruct (completed_run_steps Sample.good_world a (pipeline_args a)
              ["ATOM"] Sample.results) as [Hsteps _].
  - simpl. do 5 right. left. reflexivity.
  - reflexivity.
  - reflexivity.
  - rewrite Hsteps. reflexivity.
Defined.

Section RunForms.
Variable w : World.
Implicit Types (a : Args) (l : list pdb_record).

Lemma finish_outcome a l :
  isCIF a = false ->
  outcome (finish w a l) =
  match runPDB2PQR w l a with
  | inl (FailPDB2PQRError e) => inl (PDB2PQRError (ErrWrap e))
  | inl (FailOther what) => inl (OtherError what)
  | inr r =>
      if can_open w (output_pqr a) "w" then
        if apbs_input a then
          match apbs_inputgen w (output_pqr a) with
          | Some what => inl (OtherError what)
          | None => inr tt
          end
        else inr tt
      else inl (OSError (output_pqr a))
  end.
Proof.
  intros Hc. destruct (runPDB2PQR w l a) as [[e|what]|r] eqn:Hr.
  - now rewrite (finish_pipeline_error w a l e Hr).
  - now rewrite (finish_other_failure w a l what Hr).
  - rewrite (finish_returned w a l r Hc Hr), apbs_stage_eq.
    destruct (can_open w (output_pqr a) "w"); [|reflexivity].
    now destruct (apbs_input a).
Qed.

(** The outcome of the whole run, stage by stage. *)
Lemma mainCommand_outcome a :
  outcome (mainCommand w a) =
  match outcome (configure w a) with
  | inl e => inl e
  | inr _ =>
      match readPDB w (getPDBFile w (input_pdb a)) with
      | ([], []) => inl (ParserError (not_found_message (input_pdb a)))
      | (_, _ :: _) => inl (NameError "isCIF")
      | (r :: l, []) => outcome (finish w (pipeline_args a) (r :: l))
      end
  end.
Proof.
  destruct (outcome (configure w a)) as [e|a1] eqn:Hc.
  - now rewrite (mainCommand_configure_failed w a e Hc).
  - destruct (mainCommand_configured w a a1 Hc) as [_ ->].
    pose proof (configure_result w a a1 Hc) as ->.
    rewrite process_eq. cbv zeta.
    destruct (force_flags_frame a) as (_ & _ & _ & _ & _ & ->).
    destruct (readPDB w (getPDBFile w (input_pdb a))) as [[|r l] [|x e]];
      try reflexivity.
    now rewrite outcome_bind.
Qed.

(** The steps of the whole run, stage by stage. *)
Lemma mainCommand_trace a :
  trace (mainCommand w a) =
  trace (configure w a) ++
  match outcome (configure w a) with
  | inl _ => []
  | inr _ =>
      [EvGetPDBFile (input_pdb a); EvReadPDB (getPDBFile w (input_pdb a))] ++
      match readPDB w (getPDBFile w (input_pdb a)) with
      | (r :: l, []) => trace (finish w (pipeline_args a) (r :: l))
      | _ => []
      end
  end.
Proof.
  destruct (outcome (configure w a)) as [e|a1] eqn:Hc.
  - rewrite (mainCommand_configure_failed w a e Hc). simpl.
    now rewrite app_nil_r.
  - destruct (mainCommand_configured w a a1 Hc) as [-> _].
    pose proof (configure_result w a a1 Hc) as ->.
    rewrite process_eq. cbv zeta.
    destruct (force_flags_frame a) as (_ & _ & _ & _ & _ & ->).
    destruct (readPDB w (getPDBFile w (input_pdb a))) as [[|r l] [|x e]];
      try reflexivity.
    now rewrite trace_bind.
Qed.

End RunForms.

(** X8.  When the pipeline returned but the output file cannot be opened
    for writing, the run ends with the uncaught [OSError] of [open]: the
    pipeline has run once, nothing is written, and the APBS input is not
    generated. *)
Theorem unwritable_output_raises_OSError
        (w : World) (a a' : Args) (l : list pdb_record) (r : Results) :
  In (EvRun l a') (trace (mainCommand w a)) ->
  runPDB2PQR w l a' = inr r ->
  can_open w (output_pqr a) "w" = false ->
  outcome (mainCommand w a) = inl (OSError (output_pqr a)) /\
  count_run (trace (mainCommand w a)) = 1 /\
  written (output_pqr a) (trace (mainCommand w a)) = [] /\
  ~ In (EvApbsInput (output_pqr a)) (trace (mainCommand w a)).
Proof.
  intros Hin Hrun Hopen.
  destruct (mainCommand_run_event w a l a' Hin) as (Ha' & _ & -> & ->).
  change (a' = pipeline_args a) in Ha'. subst a'.
  destruct (pipeline_args_frame a) as (Hcif & Hout & _).
  rewrite (finish_returned w _ l r Hcif Hrun), Hout, Hopen.
  cbn [trace outcome fst snd]. split; [reflexivity|]. split; [|split].
  - rewrite count_run_app,
      (existsb_false_count _ (configure_has_no_run_event w a)).
    reflexivity.
  - rewrite written_app,
      (written_setup _ _ (configure_emits_setup w a)). reflexivity.
  - intros H. apply in_app_or in H. destruct H as [H|H].
    + apply (emits_only_In _ _ _ (configure_emits_setup w a)) in H.
      discriminate.
    + simpl in H. repeat destruct H as [H|H]; try discriminate; exact H.
Qed.

(** The sample run into an output file that cannot be opened. *)
Lemma unwritable_output_raises_OSError_witness :
  let w := Scenario.without_file "out.pqr" Sample.good_world in
  outcome (mainCommand w Sample.args) = inl (OSError "out.pqr") /\
  written "out.pqr" (trace (mainCommand w Sample.args)) = [].
Proof.
  intros w.
  destruct (unwritable_output_raises_OSError w Sample.args
              (pipeline_args Sample.args) ["ATOM"] Sample.results)
    as (Ho & _ & Hw & _).
  - simpl. do 5 right. left. reflexivity.
  - reflexivity.
  - reflexivity.
  - split; [exact Ho | exact Hw].
Defined.

(** X9.  An exception of the pipeline that is not a [PDB2PQRError] is not
    caught: the run ends with that very exception, nothing is logged as a
    warning or an error, and the output file is not touched. *)
Theorem other_pipeline_exception_passes_through
        (w : World) (a a' : Args) (l : list pdb_record) (what : string) :
  In (EvRun l a') (trace (mainCommand w a)) ->
  runPDB2PQR w l a' = inl (FailOther what) ->
  outcome (mainCommand w a) = inl (OtherError what) /\
  existsb is_complaint (trace (mainCommand w a)) = false /\
  existsb is_output_event (trace (mainCommand w a)) = false.
Proof.
  intros Hin Hrun.
  destruct (mainCommand_run_event w a l a' Hin) as (_ & _ & -> & ->).
  rewrite (finish_other_failure w a' l what Hrun).
  cbn [trace outcome fst snd]. split; [reflexivity|].
  rewrite !existsb_app, configure_has_no_complaint,
    configure_has_no_output_event.
  split; reflexivity.
Qed.

(** A pipeline that raises a [KeyError]. *)
Lemma other_pipeline_exception_passes_through_witness :
  let w := Sample.world (["ATOM"], []) (inl (FailOther "KeyError")) in
  outcome (mainCommand w Sample.args) = inl (OtherError "KeyError") /\
  existsb is_complaint (trace (mainCommand w Sample.args)) = false.
Proof.
  intros w.
  destruct (other_pipeline_exception_passes_through w Sample.args
              (pipeline_args Sample.args) ["ATOM"] "KeyError")
    as (Ho & Hc & _).
  - simpl. do 5 right. left. reflexivity.
  - reflexivity.
  - split; [exact Ho | exact Hc].
Defined.

(** X10.  In every run the pipeline is called at most once, and the
    output file is touched (opened for writing, written or closed) only
    in a run whose pipeline call returned a result. *)
Theorem pipeline_at_most_once_and_output_after_it (w : World) (a : Args) :
  count_run (trace (mainCommand w a)) <= 1 /\
  (existsb is_output_event (trace (mainCommand w a)) = true ->
   exists l a' r, In (EvRun l a') (trace (mainCommand w a)) /\
                  runPDB2PQR w l a' = inr r).
Proof.
  rewrite mainCommand_trace.
  rewrite count_run_app, existsb_app,
    (existsb_false_count _ (configure_has_no_run_event w a)),
    configure_has_no_output_event.
  destruct (outcome (configure w a)) as [e|a1]; [split; [auto|discriminate]|].
  destruct (readPDB w (getPDBFile w (input_pdb a))) as [[|rec l] [|x e]];
    try (split; [auto|discriminate]).
  destruct (finish_trace w (pipeline_args a) (rec :: l))
    as (rest & Hrest & Hlate).
  split.
  - rewrite Hrest.
    pose proof (existsb_false_count _ (late_events_no_run _ Hlate)) as H0.
    unfold count_run in *. simpl. rewrite H0. auto.
  - intros Hout.
    destruct (runPDB2PQR w (rec :: l) (pipeline_args a))
      as [[e|what]|r] eqn:Hrun.
    + rewrite (finish_pipeline_error w _ _ e Hrun) in Hout. discriminate.
    + rewrite (finish_other_failure w _ _ what Hrun) in Hout. discriminate.
    + exists (rec :: l), (pipeline_args a), r. split; [|exact Hrun].
      apply in_or_app. right. rewrite Hrest. simpl. auto.
Qed.

(** The sample run wrote its output file, so its pipeline returned. *)
Lemma pipeline_at_most_once_and_output_after_it_witness :
  count_run (trace (mainCommand Sample.good_world Sample.args)) <= 1 /\
  exists l a' r,
    In (EvRun l a') (trace (mainCommand Sample.good_world Sample.args)) /\
    runPDB2PQR Sample.good_world l a' = inr r.
Proof.
  split.
  - exact (proj1 (pipeline_at_most_once_and_output_after_it
                    Sample.good_world Sample.args)).
  - exact (proj2 (pipeline_at_most_once_and_output_after_it
                    Sample.good_world Sample.args) eq_refl).
Defined.

(** X11.  Whenever the pipeline is called, it is called on the records
    the PDB reader returned, which are not empty and came with no
    per-record error, and with the caller's namespace changed in five
    attributes only: [debump] and [opt] (switched off in assign-only and
    clean mode, else as supplied), [isCIF] ([False]), [outname] (the
    output path) and [active_extensions] (the supplied list, or the empty
    list when the attribute is absent or [None]). *)
Theorem pipeline_receives
        (w : World) (a a' : Args) (l : list pdb_record) :
  In (EvRun l a') (trace (mainCommand w a)) ->
  readPDB w (getPDBFile w (input_pdb a)) = (l, []) /\
  l <> [] /\
  a' = assign a (negb (assign_only a || clean a) && debump a)
                (negb (assign_only a || clean a) && opt a)
                false (output_pqr a)
                (Some (Some (extensions_or_empty a))).
Proof.
  intros Hin.
  destruct (mainCommand_run_event w a l a' Hin) as (Ha' & Hread & _ & _).
  split; [exact Hread|]. split.
  - intros ->. rewrite mainCommand_trace, Hread in Hin.
    apply in_app_or in Hin. destruct Hin as [Hin|Hin].
    + apply (emits_only_In _ _ _ (configure_emits_setup w a)) in Hin.
      discriminate.
    + destruct (outcome (configure w a)); simpl in Hin;
        repeat destruct Hin as [Hin|Hin]; try discriminate; exact Hin.
  - rewrite Ha'. unfold prepare_extensions, force_flags, extensions_or_empty.
    cbv zeta.
    destruct a as [? ao cl db op ? ? ? ? ? ? ? ? ? ? ? ? ? ? ? ? ? ? ext].
    simpl. destruct (ao || cl), ext as [[?|]|]; simpl;
      rewrite ?andb_true_l; reflexivity.
Qed.

(** The sample run: both flags as supplied, an empty extension list. *)
Lemma pipeline_receives_witness :
  pipeline_args Sample.args =
  assign Sample.args true true false "out.pqr" (Some (Some [])).
Proof.
  refine (proj2 (proj2 (pipeline_receives Sample.good_world Sample.args
                          (pipeline_args Sample.args) ["ATOM"] _))).
  simpl. do 5 right. left. reflexivity.
Defined.

(** X12.  The run completes without an exception exactly when
    configuration went through, the PDB reader returned at least one
    record and no per-record error, the pipeline returned a result, the
    output file could be opened for writing, and the APBS input generator
    (if asked for) did not fail. *)
Theorem run_completes_iff (w : World) (a : Args) :
  outcome (mainCommand w a) = inr tt <->
  outcome (configure w a) = inr (force_flags a) /\
  (exists rec l, readPDB w (getPDBFile w (input_pdb a)) = (rec :: l, [])) /\
  (exists r, runPDB2PQR w (fst (readPDB w (getPDBFile w (input_pdb a))))
                        (pipeline_args a) = inr r) /\
  can_open w (output_pqr a) "w" = true /\
  (apbs_input a = true -> apbs_inputgen w (output_pqr a) = None).
Proof.
  destruct (pipeline_args_frame a) as (Hcif & Hout & _ & Hapbs).
  rewrite mainCommand_outcome.
  destruct (outcome (configure w a)) as [e|a1] eqn:Hc.
  { split; [discriminate | now intros [? _]]. }
  pose proof (configure_result w a a1 Hc) as ->.
  destruct (readPDB w (getPDBFile w (input_pdb a))) as [[|rec l] [|x e]].
  1-2, 4: split; [discriminate | now intros (_ & (? & ? & ?) & _)].
  rewrite (finish_outcome w _ _ Hcif), Hout, Hapbs. simpl fst.
  destruct (runPDB2PQR w (rec :: l) (pipeline_args a)) as [[e|what]|r].
  1-2: split; [discriminate | now intros (_ & _ & [? ?] & _)].
  destruct (can_open w (output_pqr a) "w").
  2: split; [discriminate | now intros (_ & _ & _ & ? & _)].
  destruct (apbs_input a).
  - destruct (apbs_inputgen w (output_pqr a)) as [what|].
    + split; [discriminate|]. intros (_ & _ & _ & _ & H).
      now specialize (H eq_refl).
    + split; [|reflexivity]. intros _. repeat split; eauto.
  - split; [|reflexivity]. intros _. repeat split; eauto. discriminate.
Qed.

(** X13.  The output loop on a CIF namespace ([args.isCIF] true, no
    whitespace option): every line of the pipeline is written unchanged
    except those that start with [TER], and the last text written is the
    trailer [#]. *)
Theorem cif_output_drops_TER_and_ends_with_hash
        (w : World) (a : Args) (r : Results) :
  isCIF a = true -> whitespace a = false ->
  can_open w (output_pqr a) "w" = true ->
  outcome (write_output w a r) = inr tt /\
  written (output_pqr a) (trace (write_output w a r)) =
    header r ::
    filter (fun line => negb (String.eqb (PyStr.slice 0 3 line) "TER"))
           (lines r) ++ ["#
"].
Proof.
  intros Hc Hw Hopen. unfold write_output, open_file.
  rewrite Hc, Hopen, write_lines_eq. simpl.
  rewrite String.eqb_refl. split; [reflexivity|]. f_equal.
  rewrite written_app, written_map. simpl. rewrite String.eqb_refl.
  f_equal. unfold lines_written.
  induction (lines r) as [|l ls IH]; simpl; [reflexivity|].
  unfold write_line at 1. rewrite Hw, Hc, andb_true_r.
  destruct (String.eqb (PyStr.slice 0 3 l) "TER"); simpl; now rewrite IH.
Qed.

(** The sample pipeline result written under a CIF namespace. *)
Lemma cif_output_drops_TER_and_ends_with_hash_witness :
  written "out.pqr"
          (trace (write_output Sample.good_world
                               (set_isCIF true Sample.args) Sample.results)) =
  [header Sample.results; Sample.atom_line; "END"; "#
"].
Proof.
  exact (proj2 (cif_output_drops_TER_and_ends_with_hash Sample.good_world
                  (set_isCIF true Sample.args) Sample.results
                  eq_refl eq_refl eq_refl)).
Defined.

(** The whitespace rewriting adds four characters, and the line comes
    back when the characters at the four (clipped) offsets are deleted. *)
Lemma add_whitespace_undo (line : string) :
  String.length (add_whitespace line) = String.length line + 4 /\
  PyStr.delete_at (clip 46 line) (PyStr.delete_at (clip 38 line)
    (PyStr.delete_at (clip 16 line) (PyStr.delete_at (clip 6 line)
      (add_whitespace line)))) = line.
Proof.
  unfold add_whitespace, clip.
  do 46 (destruct line as [|? line]; [split; reflexivity|]).
  cbn -[Nat.add]. split; [lia | reflexivity].
Qed.

(** X14.  The whitespace rewriting of lines 139 and 142 loses nothing:
    two lines that are rewritten to the same text are the same line. *)
Theorem add_whitespace_injective (line1 line2 : string) :
  add_whitespace line1 = add_whitespace line2 -> line1 = line2.
Proof.
  intros H.
  destruct (add_whitespace_undo line1) as [Hlen1 Hback1].
  destruct (add_whitespace_undo line2) as [Hlen2 Hback2].
  assert (Hlen : String.length line1 = String.length line2).
  { rewrite H in Hlen1. lia. }
  rewrite <- Hback1, <- Hback2. unfold clip. now rewrite H, Hlen.
Qed.

(** A line given twice, once as a slice of a longer text; and two lines
    that differ in their last column only. *)
Lemma add_whitespace_injective_witness :
  PyStr.slice 0 14 "ATOM      1  N   MET" = "ATOM      1  N" /\
  add_whitespace "ATOM      1  N" <> add_whitespace "ATOM      1  C".
Proof.
  split.
  - exact (add_whitespace_injective
             (PyStr.slice 0 14 "ATOM      1  N   MET") "ATOM      1  N"
             eq_refl).
  - intros H. apply add_whitespace_injective in H. discriminate H.
Defined.
